(** * MultipleVirtualList: the composite scroll coordinator

    A shallow embedding of
    [packages/react-components/src/components/MultipleVirtualList/index.tsx].

    The component keeps two pieces of React state ([_height], [scrollTop]),
    one mutable ref ([currentFetchIndex]) and one throttled wrapper around
    [scrollFetch].  Every handler of the component becomes a function on an
    explicit [State]; the calls made to the segments' [fetchMore] hooks are
    recorded, in order, in the [fetched] log of that state.  JavaScript
    faults (reading a member of [undefined], calling a non-function) are the
    [Throw] results of a small error monad, so that "no error is raised" is
    a statement about the handlers and not an assumption.

    Numbers are modelled as integers ([Z]): indices are integers in the
    source, and of pixel extents only their truthiness and their identity
    matter to the coordinator.

    The handlers are first given for one set of props.  [onScroll] is
    memoised without dependencies, so the scroll path of an instance keeps
    the props of its first render while the edge closures and the children
    follow the current ones; [Mounted], [occur] and [life] follow an
    instance through its re-renders.  The [fetchMore] hooks are the
    caller's code and are taken to return. *)

From Stdlib Require Import ZArith List Bool String Lia.
From stdpp Require Import base list.
Import ListNotations.
Local Open Scope Z_scope.

(** ** The fragment of JavaScript the component relies on *)

Module Js.

(** Run-time values a [fetchMore] field can hold.  Functions are known by
    an identifier; calling one is recorded in the state's log. *)
Inductive value :=
| Undefined
| Null
| Boolean (b : bool)
| Number (n : Z)
| Str (s : string)
| Function (f : nat).

Inductive type_tag :=
| TUndefined | TObject | TBoolean | TNumber | TString | TFunction.

Definition typeof (v : value) : type_tag :=
  match v with
  | Undefined => TUndefined
  | Null => TObject
  | Boolean _ => TBoolean
  | Number _ => TNumber
  | Str _ => TString
  | Function _ => TFunction
  end.

Definition type_tag_eqb (a b : type_tag) : bool :=
  match a, b with
  | TUndefined, TUndefined | TObject, TObject | TBoolean, TBoolean
  | TNumber, TNumber | TString, TString | TFunction, TFunction => true
  | _, _ => false
  end.

(** [n ? a : b] and [n || d] on a number: [0] is the falsy one. *)
Definition truthy_number (n : Z) : bool := negb (n =? 0).

Definition truthy (v : value) : bool :=
  match v with
  | Undefined | Null => false
  | Boolean b => b
  | Number n => truthy_number n
  | Str s => negb (String.eqb s EmptyString)
  | Function _ => true
  end.

(** [x || d] where [x : number | undefined]. *)
Definition or_number (x : option Z) (d : Z) : Z :=
  match x with
  | Some n => if truthy_number n then n else d
  | None => d
  end.

Inductive error := TypeError.

Inductive result (A : Type) :=
| Ok (a : A)
| Throw (e : error).
Arguments Ok {A} a.
Arguments Throw {A} e.

Definition bind {A B} (r : result A) (k : A -> result B) : result B :=
  match r with
  | Ok a => k a
  | Throw e => Throw e
  end.

(** [o.f]: a fault when [o] is [undefined]. *)
Definition member {O A} (o : option O) (f : O -> A) : result A :=
  match o with
  | Some x => Ok (f x)
  | None => Throw TypeError
  end.

(** [o?.f]: [undefined] when [o] is [undefined]. *)
Definition opt_member {O} (o : option O) (f : O -> value) : value :=
  match o with
  | Some x => f x
  | None => Undefined
  end.

(** [a[i]] on an array: [undefined] outside [0 .. a.length - 1]. *)
Definition index {A} (a : list A) (i : Z) : option A :=
  if i <? 0 then None else a !! Z.to_nat i.

End Js.

#[global] Instance result_ret : MRet Js.result := @Js.Ok.
#[global] Instance result_bind : MBind Js.result :=
  fun A B k r => Js.bind r k.

(** ** Configuration *)

(** [MvlConfigItem].  [title], [fetchUrl] and [fetchParams] are never read by
    the component.  The render callbacks are only handed on to the segment,
    so an identifier stands for each. *)
Record MvlConfigItem := {
  dataLength : Z;
  itemSize : option Z;
  fetchMore : Js.value;
  renderPrefix : option nat;
  renderSuffix : option nat;
  renderItem : option nat;
  renderGap : option Z
}.

Abbreviation MvlConfig := (list MvlConfigItem).

(** [MultipleVirtualListProps] after the destructuring defaults have been
    applied.  [width] and [height] only reach the container's style. *)
Record MultipleVirtualListProps := {
  renderConfig : MvlConfig;
  boundary : Z;
  fetchOnScroll : bool;
  srcollInterval : Z;
  fetchOnBottom : bool
}.

(** The defaults of the parameter list: [fetchOnScroll = true],
    [srcollInterval = 200], [fetchOnBottom = false], [boundary = 0]. *)
Definition default_props (cfg : MvlConfig) : MultipleVirtualListProps :=
  {| renderConfig := cfg;
     boundary := 0;
     fetchOnScroll := true;
     srcollInterval := 200;
     fetchOnBottom := false |}.

(** [renderConfig.length] *)
Definition segmentCount (p : MultipleVirtualListProps) : Z :=
  Z.of_nat (length (renderConfig p)).

(** ** State of one mounted instance *)

(** [T] is the private state of the throttled wrapper. *)
Record State (T : Type) := {
  _height : Z;
  scrollTop : Z;
  currentFetchIndex : Z;
  timer : T;
  fetched : list nat
}.
Arguments _height {T} s.
Arguments scrollTop {T} s.
Arguments currentFetchIndex {T} s.
Arguments timer {T} s.
Arguments fetched {T} s.

Definition mount {T} (t0 : T) : State T :=
  {| _height := 0; scrollTop := 0; currentFetchIndex := 0;
     timer := t0; fetched := [] |}.

Definition setHeight {T} (h : Z) (s : State T) : State T :=
  {| _height := h; scrollTop := scrollTop s;
     currentFetchIndex := currentFetchIndex s;
     timer := timer s; fetched := fetched s |}.

Definition setScrollTop {T} (o : Z) (s : State T) : State T :=
  {| _height := _height s; scrollTop := o;
     currentFetchIndex := currentFetchIndex s;
     timer := timer s; fetched := fetched s |}.

Definition write_currentFetchIndex {T} (i : Z) (s : State T) : State T :=
  {| _height := _height s; scrollTop := scrollTop s;
     currentFetchIndex := i;
     timer := timer s; fetched := fetched s |}.

Definition write_timer {T} (t : T) (s : State T) : State T :=
  {| _height := _height s; scrollTop := scrollTop s;
     currentFetchIndex := currentFetchIndex s;
     timer := t; fetched := fetched s |}.

Definition log_call {T} (f : nat) (s : State T) : State T :=
  {| _height := _height s; scrollTop := scrollTop s;
     currentFetchIndex := currentFetchIndex s;
     timer := timer s; fetched := fetched s ++ [f] |}.

(** [v()]: a fault unless [v] is a function; the call is logged.  The hook
    is the caller's code: it is taken to return, and what a handler would do
    after a hook has thrown is not modelled.  Statements about a handler that
    calls a hook are statements about the case where the hook returns. *)
Definition invoke {T} (v : Js.value) (s : State T) : Js.result (State T) :=
  match v with
  | Js.Function f => Js.Ok (log_call f s)
  | _ => Js.Throw Js.TypeError
  end.

(** ** The segment component's props *)

(** The two closures [onBottom(index)] can return. *)
Inductive handler :=
| FetchSegment (index : nat)
| AdvancePast (index : nat).

Module MVirtualList.
Record Props := {
    outerHeight : Z;
    key : nat;
    scrollTop : Z;
    dataLength : Z;
    onBottom : handler;
    onLeave : option handler;
    itemSize : Z;
    renderPrefix : option nat;
    renderSuffix : option nat;
    renderItem : option nat;
    renderGap : Z;
    boundary : Z
  }.
End MVirtualList.

(** ** The coordinator *)

Section Coordinator.

(** [throttle] comes from [./utils].  The wrapper it returns is taken here as
    a gate with private state: called at time [now] with the configured
    interval, it says whether the wrapped function runs in this call and
    what the wrapper remembers afterwards. *)
Variable T : Type.
Variable throttle : Z -> Z -> T -> bool * T.

Variable p : MultipleVirtualListProps.

(** [[
    const setCurrentFetchIndex = (val: number) => {
      currentFetchIndex.current =
        val > renderConfig.length - 1 ? renderConfig.length - 1 : val
    }
    ]] *)
Definition setCurrentFetchIndex (val : Z) (s : State T) : State T :=
  write_currentFetchIndex
    (if val >? segmentCount p - 1 then segmentCount p - 1 else val) s.

(** [[
    if (fetchOnScroll) {
      if (renderConfig[currentFetchIndex.current]?.fetchMore &&
          typeof renderConfig[currentFetchIndex.current]?.fetchMore === 'function')
        renderConfig[currentFetchIndex.current].fetchMore!()
    }
    ]] *)
Definition scrollFetch (s : State T) : Js.result (State T) :=
  if fetchOnScroll p then
    let current := Js.index (renderConfig p) (currentFetchIndex s) in
    if Js.truthy (Js.opt_member current fetchMore)
       && Js.type_tag_eqb (Js.typeof (Js.opt_member current fetchMore))
                          Js.TFunction
    then f ← Js.member current fetchMore; invoke f s
    else Js.Ok s
  else Js.Ok s.

(** [throttle(scrollFetch, srcollInterval)], called at time [now].
    [onScroll] is memoised with an empty dependency list, so every scroll
    event of an instance goes through the wrapper made at its first render:
    there is one throttle state per instance. *)
Definition throttledScrollFetch (now : Z) (s : State T) : Js.result (State T) :=
  let '(run, t) := throttle (srcollInterval p) now (timer s) in
  if run then scrollFetch (write_timer t s) else Js.Ok (write_timer t s).

(** [[
    const _scrollTop = e.currentTarget.scrollTop
    setScrollTop(_scrollTop)
    throttledScrollFetch()
    ]] *)
Definition onScroll (now _scrollTop : Z) (s : State T) : Js.result (State T) :=
  throttledScrollFetch now (setScrollTop _scrollTop s).

(** [onBottom(index)] chooses the closure once, from [fetchOnBottom]. *)
Definition onBottom (index : nat) : handler :=
  if fetchOnBottom p then FetchSegment index else AdvancePast index.

(** The bodies of the two closures:
    [[
    if (renderConfig && renderConfig[index] &&
        typeof renderConfig[index].fetchMore === 'function')
      renderConfig[index].fetchMore!()
    ]]
    and [() => setCurrentFetchIndex(index + 1)].  An array and an object are
    always truthy. *)
Definition run_handler (h : handler) (s : State T) : Js.result (State T) :=
  match h with
  | FetchSegment index =>
      let segment := Js.index (renderConfig p) (Z.of_nat index) in
      match segment with
      | Some _ =>
          t ← (f ← Js.member segment fetchMore; Js.Ok (Js.typeof f));
          if Js.type_tag_eqb t Js.TFunction
          then f ← Js.member segment fetchMore; invoke f s
          else Js.Ok s
      | None => Js.Ok s
      end
  | AdvancePast index => Js.Ok (setCurrentFetchIndex (Z.of_nat index + 1) s)
  end.

(** The effect run after mount:
    [setHeight(divRef.current?.getBoundingClientRect().height || 0)];
    [rect] is [None] while the container is not attached. *)
Definition measure (rect : option Z) (s : State T) : State T :=
  setHeight (Js.or_number rect 0) s.

(** [onLeave={fetchOnBottom ? undefined : onBottom(index)}] *)
Definition onLeave (index : nat) : option handler :=
  if fetchOnBottom p then None else Some (onBottom index).

(** The props handed to the segment at position [index]. *)
Definition segment_props (s : State T) (index : nat) (dataItem : MvlConfigItem)
  : MVirtualList.Props :=
  {| MVirtualList.outerHeight := _height s;
     MVirtualList.key := index;
     MVirtualList.scrollTop := scrollTop s;
     MVirtualList.dataLength := dataLength dataItem;
     MVirtualList.onBottom := onBottom index;
     MVirtualList.onLeave := onLeave index;
     MVirtualList.itemSize := Js.or_number (itemSize dataItem) 100;
     MVirtualList.renderPrefix := renderPrefix dataItem;
     MVirtualList.renderSuffix := renderSuffix dataItem;
     MVirtualList.renderItem := renderItem dataItem;
     MVirtualList.renderGap := Js.or_number (renderGap dataItem) 0;
     MVirtualList.boundary := boundary p |}.

(** The children of the container: [_height ? renderConfig.map(...) : null]. *)
Definition render (s : State T) : option (list MVirtualList.Props) :=
  if Js.truthy_number (_height s)
  then Some (imap (segment_props s) (renderConfig p))
  else None.

(** ** Events *)

(** What can happen to a mounted instance: a scroll event of the container
    at a given time, the bottom or leave signal of the segment at [index],
    the measuring effect, and a direct call of [setCurrentFetchIndex]. *)
Inductive event :=
| Scroll (now _scrollTop : Z)
| Bottom (index : nat)
| Leave (index : nat)
| Measure (rect : option Z)
| SetCurrentFetchIndex (val : Z).

(** A signal of the segment at [index] runs the closure that segment was
    given for it.  A segment that is not rendered sends no signal, and a
    signal whose prop is [undefined] has nothing to run. *)
Definition signal (prop : MVirtualList.Props -> option handler)
  (index : nat) (s : State T) : Js.result (State T) :=
  match render s with
  | Some segments =>
      match segments !! index with
      | Some v =>
          match prop v with
          | Some h => run_handler h s
          | None => Js.Ok s
          end
      | None => Js.Ok s
      end
  | None => Js.Ok s
  end.

Definition step (e : event) (s : State T) : Js.result (State T) :=
  match e with
  | Scroll now o => onScroll now o s
  | Bottom index => signal (fun v => Some (MVirtualList.onBottom v)) index s
  | Leave index => signal MVirtualList.onLeave index s
  | Measure rect => Js.Ok (measure rect s)
  | SetCurrentFetchIndex val => Js.Ok (setCurrentFetchIndex val s)
  end.

(** A sequence of events handled by closures over one set of props [p].
    Every closure of the component reads the props of the render that made
    it; [life] below follows an instance through re-renders. *)
Fixpoint run (es : list event) (s : State T) : Js.result (State T) :=
  match es with
  | [] => Js.Ok s
  | e :: es' => s' ← step e s; run es' s'
  end.

(** The function the segment at position [i] can be asked to fetch with,
    if it has one. *)
Definition hook (i : Z) : option nat :=
  match Js.index (renderConfig p) i with
  | Some dataItem =>
      match fetchMore dataItem with
      | Js.Function f => Some f
      | _ => None
      end
  | None => None
  end.

End Coordinator.

Arguments setCurrentFetchIndex {T} p val s.
Arguments scrollFetch {T} p s.
Arguments throttledScrollFetch {T} throttle p now s.
Arguments onScroll {T} throttle p now _scrollTop s.
Arguments run_handler {T} p h s.
Arguments measure {T} rect s.
Arguments segment_props {T} p s index dataItem.
Arguments render {T} p s.
Arguments signal {T} p prop index s.
Arguments step {T} throttle p e s.
Arguments run {T} throttle p es s.

(** A sequence of [onScroll] calls, each given by its time and the offset
    the container reports. *)
Definition scrolls (calls : list (Z * Z)) : list event :=
  map (fun c => Scroll (fst c) (snd c)) calls.

(** ** The imperative handle and the container *)

Module Dom.

(** The one value of [behavior] the component ever sets. *)
Inductive ScrollBehavior := smooth.

Record ScrollToOptions := {
  top : Z;
  behavior : option ScrollBehavior
}.

End Dom.

(** The second argument of the handle's [scrollTo]: [{ animation: boolean }]. *)
Record ScrollToConfig := { animation : bool }.

(** [[
    scrollTo: (val, config) => {
      if (divRef.current) {
        const scrollToConfig: ScrollToOptions = { top: val }
        if (config && config.animation) scrollToConfig.behavior = 'smooth'
        divRef.current.scrollTo(scrollToConfig)
      }
    }
    ]]
    The container element is known by the [scrollTo] calls it has received;
    [divRef] is [None] while [divRef.current] is [null]. *)
Definition scrollTo (val : Z) (config : option ScrollToConfig)
    (divRef : option (list Dom.ScrollToOptions))
  : option (list Dom.ScrollToOptions) :=
  match divRef with
  | Some calls =>
      let scrollToConfig := {| Dom.top := val; Dom.behavior := None |} in
      let scrollToConfig :=
        if match config with Some c => animation c | None => false end
        then {| Dom.top := Dom.top scrollToConfig;
                Dom.behavior := Some Dom.smooth |}
        else scrollToConfig in
      Some (calls ++ [scrollToConfig])
  | None => None
  end.

Module Style.
Record t := {
  height : Js.value;
  width : Js.value;
  position : string;
  overflow : string
}.
End Style.

(** The container's style:
    [{ height: _height || height, width: width || '100%',
       position: 'relative', overflow: 'auto' }];
    [height] is a number or a string, [width] may be missing. *)
Definition container_style {T} (width height : Js.value) (s : State T)
  : Style.t :=
  {| Style.height :=
       if Js.truthy_number (_height s) then Js.Number (_height s) else height;
     Style.width := if Js.truthy width then width else Js.Str "100%";
     Style.position := "relative";
     Style.overflow := "auto" |}.

(** ** Vocabulary for the properties *)

(** [f] is the [fetchMore] function of some configured segment. *)
Definition configured (p : MultipleVirtualListProps) (f : nat) : Prop :=
  exists i dataItem,
    renderConfig p !! i = Some dataItem /\ fetchMore dataItem = Js.Function f.

(** The events the host delivers; [setCurrentFetchIndex] is internal and is
    only reached through an edge signal. *)
Definition host_event (e : event) : bool :=
  match e with
  | SetCurrentFetchIndex _ => false
  | _ => true
  end.

(** The events whose handler contains a call of [fetchMore] that the
    configuration enables. *)
Definition may_fetch (p : MultipleVirtualListProps) (e : event) : bool :=
  match e with
  | Scroll _ _ => fetchOnScroll p
  | Bottom _ => fetchOnBottom p
  | _ => false
  end.

(** The events whose handler sets React state. *)
Definition sets_state (e : event) : bool :=
  match e with
  | Scroll _ _ | Measure _ => true
  | _ => false
  end.

Definition with_scrollTop (o : Z) (v : MVirtualList.Props)
  : MVirtualList.Props :=
  {| MVirtualList.outerHeight := MVirtualList.outerHeight v;
     MVirtualList.key := MVirtualList.key v;
     MVirtualList.scrollTop := o;
     MVirtualList.dataLength := MVirtualList.dataLength v;
     MVirtualList.onBottom := MVirtualList.onBottom v;
     MVirtualList.onLeave := MVirtualList.onLeave v;
     MVirtualList.itemSize := MVirtualList.itemSize v;
     MVirtualList.renderPrefix := MVirtualList.renderPrefix v;
     MVirtualList.renderSuffix := MVirtualList.renderSuffix v;
     MVirtualList.renderItem := MVirtualList.renderItem v;
     MVirtualList.renderGap := MVirtualList.renderGap v;
     MVirtualList.boundary := MVirtualList.boundary v |}.

(** ** The throttle *)

(** Modelled from the spec: [throttle] of [./utils], whose source is not part
    of the component's file.  The wrapper invokes the wrapped function on
    the first call of a quiescent period, and drops (does not queue) every
    call made within [interval] of the last actual invocation.  The leading
    edge is the one chosen; the wrapper remembers the time of the last
    actual invocation. *)
Definition throttle_leading (interval now : Z) (last : option Z)
  : bool * option Z :=
  match last with
  | None => (true, Some now)
  | Some t =>
      if now - t <? interval then (false, Some t) else (true, Some now)
  end.

(** ** Concrete instances *)

Module Scenario.

Definition segment (n : Z) (f : Js.value) : MvlConfigItem :=
  {| dataLength := n; itemSize := Some 50; fetchMore := f;
     renderPrefix := None; renderSuffix := None; renderItem := Some 0%nat;
     renderGap := None |}.

(** Three segments of 10, 5 and 20 items, each with its own fetch hook. *)
Definition three : MvlConfig :=
  [segment 10 (Js.Function 0); segment 5 (Js.Function 1);
   segment 20 (Js.Function 2)].

(** Four segments; the second has no hook, the third a hook that is not
    callable. *)
Definition four : MvlConfig :=
  [segment 10 (Js.Function 0); segment 5 Js.Undefined;
   segment 20 (Js.Str "later"); segment 8 (Js.Function 3)].

(** The three segments again, as a later render passes them: same lengths,
    other fetch hooks. *)
Definition three_later : MvlConfig :=
  [segment 10 (Js.Function 10); segment 5 (Js.Function 11);
   segment 20 (Js.Function 12)].

(** The instance once its container has been measured at 300. *)
Definition measured : State (option Z) :=
  measure (Some 300) (mount None).

(** Fifty scroll events at times 0 .. 49. *)
Definition burst : list (Z * Z) :=
  map (fun i => (Z.of_nat i, 14 * Z.of_nat i)) (seq 0 50).

End Scenario.

(** ** Re-renders *)

(** An instance with the props of its first render and those of its latest
    one.  React state and the ref live in [inner] and survive a re-render. *)
Record Mounted (T : Type) := {
  first_props : MultipleVirtualListProps;
  props : MultipleVirtualListProps;
  inner : State T
}.
Arguments first_props {T} m.
Arguments props {T} m.
Arguments inner {T} m.

Definition mounted {T} (p : MultipleVirtualListProps) (t0 : T) : Mounted T :=
  {| first_props := p; props := p; inner := mount t0 |}.

Inductive occurrence :=
| Deliver (e : event)
| Rerender (p' : MultipleVirtualListProps).

(** The props the handler of an event closes over.  [onScroll] is
    [useCallback(..., [])]: it stays the closure of the first render, and with
    it the [throttledScrollFetch] and the [scrollFetch] of that render, which
    read that render's [renderConfig], [fetchOnScroll] and [srcollInterval].
    [onBottom], [setCurrentFetchIndex] and the children are made anew by
    every render, from the current props. *)
Definition closure_props {T} (m : Mounted T) (e : event)
  : MultipleVirtualListProps :=
  match e with
  | Scroll _ _ => first_props m
  | _ => props m
  end.

Definition occur {T} (throttle : Z -> Z -> T -> bool * T)
    (oc : occurrence) (m : Mounted T) : Js.result (Mounted T) :=
  match oc with
  | Deliver e =>
      s' ← step throttle (closure_props m e) e (inner m);
      Js.Ok {| first_props := first_props m; props := props m; inner := s' |}
  | Rerender p' =>
      Js.Ok {| first_props := first_props m; props := p'; inner := inner m |}
  end.

Fixpoint life {T} (throttle : Z -> Z -> T -> bool * T)
    (ocs : list occurrence) (m : Mounted T) : Js.result (Mounted T) :=
  match ocs with
  | [] => Js.Ok m
  | oc :: ocs' => m' ← occur throttle oc m; life throttle ocs' m'
  end.

(** The props passed by the re-renders of a sequence, and the number of
    events it delivers. *)
Fixpoint rerenders (ocs : list occurrence) : list MultipleVirtualListProps :=
  match ocs with
  | [] => []
  | Deliver _ :: ocs' => rerenders ocs'
  | Rerender p' :: ocs' => p' :: rerenders ocs'
  end.

Fixpoint deliveries (ocs : list occurrence) : nat :=
  match ocs with
  | [] => 0
  | Deliver _ :: ocs' => S (deliveries ocs')
  | Rerender _ :: ocs' => deliveries ocs'
  end.

(** Host events and re-renders that keep the number of segments at [n]. *)
Definition keeps_segments (n : nat) (oc : occurrence) : bool :=
  match oc with
  | Deliver e => host_event e
  | Rerender p' => Nat.eqb (length (renderConfig p')) n
  end.

(** No delivered event is one whose closure may fetch: [first] are the
    props of the first render, [cur] those of the latest. *)
Fixpoint quiet (first cur : MultipleVirtualListProps)
    (ocs : list occurrence) : bool :=
  match ocs with
  | [] => true
  | Deliver e :: ocs' =>
      negb (may_fetch (match e with Scroll _ _ => first | _ => cur end) e)
      && quiet first cur ocs'
  | Rerender p' :: ocs' => quiet first p' ocs'
  end.

(** ** Requests to [setCurrentFetchIndex] *)

(** The events of the claim about the active index: direct calls and edge
    signals. *)
Definition index_event (e : event) : bool :=
  match e with
  | SetCurrentFetchIndex _ | Bottom _ | Leave _ => true
  | _ => false
  end.

(** The value an event passes to [setCurrentFetchIndex], if it calls it: the
    argument of a direct call, and [index + 1] for an edge signal of a
    rendered segment when [fetchOnBottom] is off.  [h] is the measured
    height, on which rendering depends. *)
Definition request (p : MultipleVirtualListProps) (h : Z) (e : event)
  : option Z :=
  match e with
  | SetCurrentFetchIndex val => Some val
  | Bottom index | Leave index =>
      if fetchOnBottom p then None
      else if Js.truthy_number h
              && Nat.ltb index (length (renderConfig p))
           then Some (Z.of_nat index + 1)
           else None
  | _ => None
  end.

Definition last_request (p : MultipleVirtualListProps) (h : Z)
    (es : list event) : option Z :=
  fold_left (fun acc e => match request p h e with
                          | Some v => Some v
                          | None => acc
                          end) es None.

(** ** Basic facts *)

Lemma index_of_nat {A} (a : list A) (i : nat) :
  Js.index a (Z.of_nat i) = a !! i.
Proof.
  unfold Js.index.
  destruct (Z.ltb_spec (Z.of_nat i) 0) as [Hneg|_]; [lia|].
  now rewrite Nat2Z.id.
Qed.

Lemma index_in_range {A} (a : list A) (i : Z) (x : A) :
  Js.index a i = Some x -> 0 <= i < Z.of_nat (length a).
Proof.
  unfold Js.index.
  destruct (Z.ltb_spec i 0) as [|Hi]; [discriminate|].
  intros Hx. apply lookup_lt_Some in Hx. lia.
Qed.

Lemma hook_typeof (p : MultipleVirtualListProps) (i : Z) :
  (forall dataItem, Js.index (renderConfig p) i = Some dataItem ->
     Js.typeof (fetchMore dataItem) <> Js.TFunction) ->
  hook p i = None.
Proof.
  intros Hno. unfold hook.
  destruct (Js.index (renderConfig p) i) as [d|]; [|reflexivity].
  specialize (Hno d eq_refl).
  destruct (fetchMore d); simpl in Hno; congruence.
Qed.

Section Facts.

Context {T : Type}.
Variable throttle : Z -> Z -> T -> bool * T.
Variable p : MultipleVirtualListProps.

Implicit Types s : State T.

(** What [scrollFetch] amounts to: it never faults, and logs one call
    exactly when scroll fetching is on and the active segment has a
    callable hook. *)
Lemma scrollFetch_hook s :
  scrollFetch p s =
  Js.Ok (match (if fetchOnScroll p then hook p (currentFetchIndex s) else None)
         with Some f => log_call f s | None => s end).
Proof.
  unfold scrollFetch, hook.
  destruct (fetchOnScroll p); [|reflexivity].
  destruct (Js.index (renderConfig p) (currentFetchIndex s)) as [d|]; simpl;
    [|reflexivity].
  destruct (fetchMore d) as [| |b|n|str|f] eqn:Hd; simpl;
    rewrite ?Hd, ?andb_false_r; reflexivity.
Qed.

Lemma run_handler_fetch index s :
  run_handler p (FetchSegment index) s =
  Js.Ok (match hook p (Z.of_nat index)
         with Some f => log_call f s | None => s end).
Proof.
  unfold run_handler, hook.
  destruct (Js.index (renderConfig p) (Z.of_nat index)) as [d|]; simpl;
    [|reflexivity].
  destruct (fetchMore d) as [| |b|n|str|f] eqn:Hd; simpl;
    rewrite ?Hd; reflexivity.
Qed.

Lemma onScroll_hook now o s :
  onScroll throttle p now o s =
  Js.Ok (let s1 := write_timer (snd (throttle (srcollInterval p) now (timer s)))
                               (setScrollTop o s) in
         if fst (throttle (srcollInterval p) now (timer s)) then
           match (if fetchOnScroll p then hook p (currentFetchIndex s) else None)
           with Some f => log_call f s1 | None => s1 end
         else s1).
Proof.
  unfold onScroll, throttledScrollFetch. simpl.
  destruct (throttle (srcollInterval p) now (timer s)) as [go t]; simpl.
  destruct go; [|reflexivity].
  now rewrite scrollFetch_hook.
Qed.

(** A rendered segment's signal runs the closure found in its props. *)
Lemma signal_rendered prop index s dataItem :
  _height s <> 0 ->
  renderConfig p !! index = Some dataItem ->
  signal p prop index s =
  match prop (segment_props p s index dataItem) with
  | Some h => run_handler p h s
  | None => Js.Ok s
  end.
Proof.
  intros Hh Hd. unfold signal, render, Js.truthy_number.
  destruct (Z.eqb_spec (_height s) 0) as [|_]; [contradiction|]. simpl.
  now rewrite list_lookup_imap, Hd.
Qed.

Lemma signal_total prop index s :
  exists s', signal p prop index s = Js.Ok s' /\
    _height s' = _height s /\ scrollTop s' = scrollTop s /\
    timer s' = timer s /\
    (currentFetchIndex s' = currentFetchIndex s \/
     currentFetchIndex s' <= segmentCount p - 1).
Proof.
  unfold signal.
  destruct (render p s) as [segments|]; [|now exists s; auto 6].
  destruct (segments !! index) as [v|]; [|now exists s; auto 6].
  destruct (prop v) as [[i|i]|]; [| |now exists s; auto 6].
  - rewrite run_handler_fetch.
    destruct (hook p (Z.of_nat i)); eexists; (split; [reflexivity|]);
      simpl; auto 6.
  - simpl. eexists; split; [reflexivity|]. simpl. repeat split. right.
    destruct (Z.gtb_spec (Z.of_nat i + 1) (segmentCount p - 1)); lia.
Qed.

End Facts.

Lemma render_segments {T} (p : MultipleVirtualListProps) (s : State T) segments :
  render p s = Some segments ->
  _height s <> 0 /\ segments = imap (segment_props p s) (renderConfig p).
Proof.
  unfold render, Js.truthy_number.
  destruct (Z.eqb_spec (_height s) 0) as [|Hh]; simpl; [discriminate|].
  intros [= <-]. now split.
Qed.

Lemma render_lookup {T} (p : MultipleVirtualListProps) (s : State T)
    segments index dataItem :
  render p s = Some segments ->
  renderConfig p !! index = Some dataItem ->
  segments !! index = Some (segment_props p s index dataItem).
Proof.
  intros Hr Hd. apply render_segments in Hr as [_ ->].
  now rewrite list_lookup_imap, Hd.
Qed.

(** ** The active segment index *)



(** ** Scroll-driven fetch *)

(** C7: on the scroll path, when the segment at the active index has no
    callable [fetchMore] (the index meets no segment, or the field is
    missing or not a function), [scrollFetch] returns without a fault and
    without calling anything, and so does a whole [onScroll]. *)
Theorem scrollFetch_without_hook {T} (throttle : Z -> Z -> T -> bool * T)
    (p : MultipleVirtualListProps) (s : State T) :
  (forall dataItem,
     Js.index (renderConfig p) (currentFetchIndex s) = Some dataItem ->
     Js.typeof (fetchMore dataItem) <> Js.TFunction) ->
  scrollFetch p s = Js.Ok s /\
  forall now o, exists s',
    onScroll throttle p now o s = Js.Ok s' /\
    fetched s' = fetched s /\
    currentFetchIndex s' = currentFetchIndex s /\
    scrollTop s' = o.
Proof.
  intros Hno. apply hook_typeof in Hno. split.
  - rewrite scrollFetch_hook, Hno. now destruct (fetchOnScroll p).
  - intros now o. rewrite onScroll_hook, Hno. eexists. split; [reflexivity|].
    destruct (fst _), (fetchOnScroll p); simpl; auto.
Qed.

Lemma scrollFetch_without_hook_witness :
  let p := default_props Scenario.four in
  let s := setCurrentFetchIndex p 2 Scenario.measured in
  Js.index (renderConfig p) (currentFetchIndex s)
    = Some (Scenario.segment 20 (Js.Str "later")) /\
  scrollFetch p s = Js.Ok s.
Proof.
  split; [reflexivity|].
  refine (proj1 (scrollFetch_without_hook throttle_leading
    (default_props Scenario.four)
    (setCurrentFetchIndex (default_props Scenario.four) 2 Scenario.measured) _)).
  intros dataItem H. vm_compute in H. injection H as <-. discriminate.
Defined.

(** ** What the segments are given *)

(** C10: the segment of every descriptor is given [itemSize = 100] when the
    descriptor's [itemSize] is missing or [0], and [renderGap = 0] when its
    [renderGap] is missing or [0]; otherwise the configured value. *)
Theorem segment_defaults {T} (p : MultipleVirtualListProps) (s : State T)
    segments index dataItem :
  render p s = Some segments ->
  renderConfig p !! index = Some dataItem ->
  exists v, segments !! index = Some v /\
    MVirtualList.itemSize v =
      match itemSize dataItem with
      | Some n => if n =? 0 then 100 else n
      | None => 100
      end /\
    MVirtualList.renderGap v =
      match renderGap dataItem with
      | Some n => if n =? 0 then 0 else n
      | None => 0
      end.
Proof.
  intros Hr Hd. exists (segment_props p s index dataItem).
  split; [exact (render_lookup _ _ _ _ _ Hr Hd)|].
  unfold segment_props, Js.or_number, Js.truthy_number; simpl.
  split.
  - destruct (itemSize dataItem) as [n|]; [|reflexivity].
    now destruct (n =? 0).
  - destruct (renderGap dataItem) as [n|]; [|reflexivity].
    now destruct (n =? 0).
Qed.

Lemma segment_defaults_witness :
  exists v,
    imap (segment_props (default_props Scenario.three) Scenario.measured)
         Scenario.three !! 1%nat = Some v /\
    MVirtualList.itemSize v = 50 /\ MVirtualList.renderGap v = 0.
Proof.
  exact (segment_defaults (default_props Scenario.three) Scenario.measured
           _ 1%nat (Scenario.segment 5 (Js.Function 1)) eq_refl eq_refl).
Defined.

(** C6: a rendered segment is given an [onLeave] handler exactly when
    [fetchOnBottom] is off, and that handler is then the one given as
    [onBottom], the closure that moves the active index past the segment;
    with [fetchOnBottom] on, [onLeave] is [undefined] and a leave signal
    runs nothing. *)
Theorem onLeave_wired_iff {T} (throttle : Z -> Z -> T -> bool * T)
    (p : MultipleVirtualListProps) (s : State T) segments index v :
  render p s = Some segments ->
  segments !! index = Some v ->
  (MVirtualList.onLeave v = None <-> fetchOnBottom p = true) /\
  (MVirtualList.onLeave v = Some (MVirtualList.onBottom v)
     <-> fetchOnBottom p = false) /\
  (fetchOnBottom p = false ->
     MVirtualList.onBottom v = AdvancePast index /\
     step throttle p (Leave index) s
       = Js.Ok (setCurrentFetchIndex p (Z.of_nat index + 1) s)) /\
  (fetchOnBottom p = true -> step throttle p (Leave index) s = Js.Ok s).
Proof.
  intros Hr Hv.
  destruct (render_segments _ _ _ Hr) as [Hh Hs].
  assert (Hd : exists d, renderConfig p !! index = Some d /\
                         v = segment_props p s index d).
  { rewrite Hs in Hv. now apply list_lookup_imap_Some in Hv. }
  destruct Hd as (d & Hd & ->).
  simpl. rewrite (signal_rendered p _ index s d Hh Hd). simpl.
  unfold onLeave, onBottom.
  destruct (fetchOnBottom p); simpl; repeat split; congruence.
Qed.

Lemma onLeave_wired_iff_witness :
  let p := default_props Scenario.three in
  let v := segment_props p Scenario.measured 1 (Scenario.segment 5 (Js.Function 1)) in
  fetchOnBottom p = false /\
  MVirtualList.onLeave v = Some (MVirtualList.onBottom v).
Proof.
  split; [reflexivity|].
  exact (proj2 (proj1 (proj2 (onLeave_wired_iff throttle_leading
    (default_props Scenario.three) Scenario.measured _ 1%nat _
    eq_refl eq_refl))) eq_refl).
Defined.

(** C8: while [_height] is [0] nothing is rendered, no segment at all; once
    the measuring effect has committed an extent [H > 0], every configured
    segment is rendered, with [outerHeight = H], the current [scrollTop] and
    its own [dataLength]. *)
Theorem render_gated_by_height {T} (throttle : Z -> Z -> T -> bool * T)
    (p : MultipleVirtualListProps) (s : State T) :
  (_height s = 0 -> render p s = None) /\
  (forall H, 0 < H ->
     exists s' segments,
       step throttle p (Measure (Some H)) s = Js.Ok s' /\
       _height s' = H /\ scrollTop s' = scrollTop s /\
       render p s' = Some segments /\
       length segments = length (renderConfig p) /\
       forall index dataItem,
         renderConfig p !! index = Some dataItem ->
         exists v, segments !! index = Some v /\
           MVirtualList.key v = index /\
           MVirtualList.outerHeight v = H /\
           MVirtualList.scrollTop v = scrollTop s /\
           MVirtualList.dataLength v = dataLength dataItem).
Proof.
  split.
  - intros H0. unfold render. now rewrite H0.
  - intros H HH.
    assert (Hm : _height (measure (Some H) s) = H).
    { unfold measure, Js.or_number, Js.truthy_number. simpl.
      destruct (Z.eqb_spec H 0); [lia|reflexivity]. }
    assert (Hr : render p (measure (Some H) s)
                 = Some (imap (segment_props p (measure (Some H) s))
                              (renderConfig p))).
    { unfold render, Js.truthy_number. rewrite Hm.
      destruct (Z.eqb_spec H 0); [lia|reflexivity]. }
    exists (measure (Some H) s), (imap (segment_props p (measure (Some H) s))
                                       (renderConfig p)).
    split; [reflexivity|]. split; [exact Hm|]. split; [reflexivity|].
    split; [exact Hr|]. split; [apply length_imap|].
    intros index d Hd. eexists.
    split; [exact (render_lookup _ _ _ _ _ Hr Hd)|].
    split; [reflexivity|]. split; [exact Hm|]. split; reflexivity.
Qed.

Lemma render_gated_by_height_witness :
  _height (mount (@None Z)) = 0 /\
  render (default_props Scenario.three) (mount (@None Z)) = None /\
  0 < 300 /\
  exists s' segments,
    step throttle_leading (default_props Scenario.three)
         (Measure (Some 300)) (mount None) = Js.Ok s' /\
    render (default_props Scenario.three) s' = Some segments /\
    length segments = 3%nat.
Proof.
  assert (H300 : 0 < 300) by lia.
  split; [reflexivity|].
  split.
  - exact (proj1 (render_gated_by_height throttle_leading
             (default_props Scenario.three) (mount None)) eq_refl).
  - split; [exact H300|].
    destruct (proj2 (render_gated_by_height throttle_leading
                (default_props Scenario.three) (mount None)) 300 H300)
      as (s' & segments & Hs & _ & _ & Hr & Hl & _).
    exists s', segments. auto.
Defined.

(** ** Edge signals *)

(** C4: with [fetchOnBottom] on, a bottom signal of a rendered segment that
    has a callable [fetchMore] calls that function, once, and nothing else:
    the log grows by exactly that call, whatever the throttle would have
    answered, and the throttle's own state is not touched. *)
Theorem bottom_fetches_own_segment {T} (throttle : Z -> Z -> T -> bool * T)
    (p : MultipleVirtualListProps) (s : State T) index dataItem f :
  fetchOnBottom p = true ->
  _height s <> 0 ->
  renderConfig p !! index = Some dataItem ->
  fetchMore dataItem = Js.Function f ->
  exists s',
    step throttle p (Bottom index) s = Js.Ok s' /\
    fetched s' = fetched s ++ [f] /\
    timer s' = timer s /\
    currentFetchIndex s' = currentFetchIndex s /\
    scrollTop s' = scrollTop s /\ _height s' = _height s.
Proof.
  intros Hb Hh Hd Hf. exists (log_call f s).
  split; [|repeat split].
  simpl. rewrite (signal_rendered p _ index s dataItem Hh Hd). simpl.
  unfold onBottom. rewrite Hb, run_handler_fetch.
  unfold hook. now rewrite index_of_nat, Hd, Hf.
Qed.

Lemma bottom_fetches_own_segment_witness :
  exists s',
    step throttle_leading
      {| renderConfig := Scenario.three; boundary := 0; fetchOnScroll := true;
         srcollInterval := 200; fetchOnBottom := true |}
      (Bottom 1) Scenario.measured = Js.Ok s' /\
    fetched s' = fetched Scenario.measured ++ [1%nat] /\
    timer s' = timer Scenario.measured /\
    currentFetchIndex s' = currentFetchIndex Scenario.measured /\
    scrollTop s' = scrollTop Scenario.measured /\
    _height s' = _height Scenario.measured.
Proof.
  apply (bottom_fetches_own_segment throttle_leading
    {| renderConfig := Scenario.three; boundary := 0; fetchOnScroll := true;
       srcollInterval := 200; fetchOnBottom := true |}
    Scenario.measured 1%nat (Scenario.segment 5 (Js.Function 1)) 1%nat).
  - reflexivity.
  - vm_compute. discriminate.
  - reflexivity.
  - reflexivity.
Defined.

(** C5, refuted as stated: with four segments and the active index at [0],
    the bottom signal of the segment at position 2 moves the index to [3],
    an advance by three. *)
Lemma bottom_of_later_segment_jumps :
  currentFetchIndex Scenario.measured = 0 /\
  step throttle_leading (default_props Scenario.four) (Bottom 2)
       Scenario.measured
  = Js.Ok (write_currentFetchIndex 3 Scenario.measured).
Proof. split; reflexivity. Qed.

(** C5, amended: with [fetchOnBottom] off, a bottom or leave signal of the
    rendered segment at position [index] sets the active index to
    [index + 1], clamped at the last segment index, and calls no
    [fetchMore]; when the signalling segment is the active one, that is an
    advance by exactly 1 (clamped). *)
Theorem edge_signal_moves_past_segment {T} (throttle : Z -> Z -> T -> bool * T)
    (p : MultipleVirtualListProps) (s : State T) index dataItem e :
  fetchOnBottom p = false ->
  _height s <> 0 ->
  renderConfig p !! index = Some dataItem ->
  e = Bottom index \/ e = Leave index ->
  exists s',
    step throttle p e s = Js.Ok s' /\
    currentFetchIndex s' = Z.min (Z.of_nat index + 1) (segmentCount p - 1) /\
    fetched s' = fetched s /\
    (currentFetchIndex s = Z.of_nat index ->
     currentFetchIndex s' = Z.min (currentFetchIndex s + 1) (segmentCount p - 1)).
Proof.
  intros Hb Hh Hd He.
  exists (setCurrentFetchIndex p (Z.of_nat index + 1) s).
  assert (Hc : currentFetchIndex (setCurrentFetchIndex p (Z.of_nat index + 1) s)
               = Z.min (Z.of_nat index + 1) (segmentCount p - 1)).
  { simpl. destruct (Z.gtb_spec (Z.of_nat index + 1) (segmentCount p - 1)); lia. }
  split; [|split; [exact Hc|split; [reflexivity|]]].
  - destruct He as [-> | ->]; simpl;
      rewrite (signal_rendered p _ index s dataItem Hh Hd); simpl;
      unfold onLeave, onBottom; now rewrite Hb.
  - intros Hi. now rewrite Hc, Hi.
Qed.

Lemma edge_signal_moves_past_segment_witness :
  exists s',
    step throttle_leading (default_props Scenario.three) (Leave 0)
         Scenario.measured = Js.Ok s' /\
    currentFetchIndex s' = 1 /\
    fetched s' = [].
Proof.
  destruct (edge_signal_moves_past_segment throttle_leading
              (default_props Scenario.three) Scenario.measured 0%nat
              (Scenario.segment 10 (Js.Function 0)) (Leave 0))
    as (s' & Hs & Hc & Hf & _).
  - reflexivity.
  - vm_compute. discriminate.
  - reflexivity.
  - right. reflexivity.
  - exists s'. auto.
Defined.

(** ** Sequences of events *)

Section Sequences.

Context {T : Type}.
Variable throttle : Z -> Z -> T -> bool * T.
Variable p : MultipleVirtualListProps.

Implicit Types s : State T.

Lemma run_app es1 es2 s :
  run throttle p (es1 ++ es2) s
  = Js.bind (run throttle p es1 s) (run throttle p es2).
Proof.
  revert s. induction es1 as [|e es1 IH]; intros s; simpl; [reflexivity|].
  destruct (step throttle p e s) as [s1|err]; simpl; [apply IH|reflexivity].
Qed.

(** No event faults, and an event either leaves the active index alone or
    stores one that is at most [segmentCount - 1]. *)
Lemma step_total e s :
  exists s', step throttle p e s = Js.Ok s' /\
    (currentFetchIndex s' = currentFetchIndex s \/
     currentFetchIndex s' <= segmentCount p - 1).
Proof.
  destruct e as [now o|index|index|rect|val]; simpl.
  - rewrite onScroll_hook. eexists. split; [reflexivity|]. left.
    destruct (fst _), (fetchOnScroll p); simpl; try reflexivity;
      destruct (hook p (currentFetchIndex s)); reflexivity.
  - destruct (signal_total p (fun v => Some (MVirtualList.onBottom v)) index s)
      as (s' & Hs & _ & _ & _ & Hc). eauto.
  - destruct (signal_total p MVirtualList.onLeave index s)
      as (s' & Hs & _ & _ & _ & Hc). eauto.
  - eexists. split; [reflexivity|]. now left.
  - eexists. split; [reflexivity|]. right. simpl.
    destruct (Z.gtb_spec val (segmentCount p - 1)); lia.
Qed.

Lemma run_total es s :
  exists s', run throttle p es s = Js.Ok s' /\
    (currentFetchIndex s' = currentFetchIndex s \/
     currentFetchIndex s' <= segmentCount p - 1).
Proof.
  revert s. induction es as [|e es IH]; intros s; simpl.
  - exists s. auto.
  - destruct (step_total e s) as (s1 & -> & H1). simpl.
    destruct (IH s1) as (s' & -> & H'). exists s'. split; [reflexivity|].
    destruct H' as [-> | H']; auto.
Qed.

End Sequences.

(** C1, refuted as stated: with three segments, the bottom signal of the
    segment at position 1 sets the active index to [2], and a later bottom
    signal of the segment at position 0 sets it back to [1]. *)
Lemma currentFetchIndex_decreases :
  run throttle_leading (default_props Scenario.three) [Bottom 1]
      Scenario.measured
  = Js.Ok (write_currentFetchIndex 2 Scenario.measured) /\
  run throttle_leading (default_props Scenario.three) [Bottom 1; Bottom 0]
      Scenario.measured
  = Js.Ok (write_currentFetchIndex 1 Scenario.measured).
Proof. split; reflexivity. Qed.

(** ** Scrolling *)

(** C3: after any sequence of [onScroll] calls, whatever their number and
    their times, [scrollTop] is the offset of the last call. *)
Theorem scrollTop_is_last_offset {T} (throttle : Z -> Z -> T -> bool * T)
    (p : MultipleVirtualListProps) (calls : list (Z * Z)) (now o : Z)
    (s : State T) :
  exists s',
    run throttle p (scrolls (calls ++ [(now, o)])) s = Js.Ok s' /\
    scrollTop s' = o.
Proof.
  unfold scrolls. rewrite map_app, run_app.
  destruct (run_total throttle p (map (fun c => Scroll (fst c) (snd c)) calls) s)
    as (s1 & -> & _).
  simpl. rewrite onScroll_hook. eexists. split; [reflexivity|].
  destruct (fst _), (fetchOnScroll p); simpl; try reflexivity;
    destruct (hook p (currentFetchIndex s1)); reflexivity.
Qed.

(** ** Throttled fetching *)

Section Burst.

Variable p : MultipleVirtualListProps.

Implicit Types s : State (option Z).

(** One [onScroll] under the leading-edge throttle. *)
Lemma onScroll_leading now o s :
  exists s', onScroll throttle_leading p now o s = Js.Ok s' /\
    currentFetchIndex s' = currentFetchIndex s /\
    ((timer s' = timer s /\ fetched s' = fetched s) \/
     (timer s' = Some now /\
      exists l, fetched s' = fetched s ++ l /\ (length l <= 1)%nat /\
        forall f, In f l -> hook p (currentFetchIndex s) = Some f)).
Proof.
  rewrite onScroll_hook. eexists. split; [reflexivity|].
  assert (Hlog : forall t,
    let s1 := write_timer (Some t) (setScrollTop o s) in
    let s2 := match (if fetchOnScroll p then hook p (currentFetchIndex s)
                     else None)
              with Some f => log_call f s1 | None => s1 end in
    currentFetchIndex s2 = currentFetchIndex s /\ timer s2 = Some t /\
    exists l, fetched s2 = fetched s ++ l /\ (length l <= 1)%nat /\
      forall f, In f l -> hook p (currentFetchIndex s) = Some f).
  { intros t.
    destruct (fetchOnScroll p);
      [destruct (hook p (currentFetchIndex s)) as [f|] eqn:Hh|]; simpl.
    - repeat split. exists [f]. repeat split; [simpl; lia|].
      intros f' [<-|[]]. reflexivity.
    - repeat split. exists []. rewrite app_nil_r. repeat split; [simpl; lia|].
      intros f' [].
    - repeat split. exists []. rewrite app_nil_r. repeat split; [simpl; lia|].
      intros f' []. }
  unfold throttle_leading.
  destruct (timer s) as [t|] eqn:Ht.
  - destruct (now - t <? srcollInterval p); cbn [fst snd].
    + split; [reflexivity|]. left. split; reflexivity.
    + destruct (Hlog now) as (Hi & Ht' & Hl). split; [exact Hi|]. right.
      split; [exact Ht'|exact Hl].
  - cbn [fst snd]. destruct (Hlog now) as (Hi & Ht' & Hl).
    split; [exact Hi|]. right. split; [exact Ht'|exact Hl].
Qed.

Lemma throttle_leading_drop interval now t :
  now - t < interval ->
  throttle_leading interval now (Some t) = (false, Some t).
Proof.
  intros H. unfold throttle_leading.
  destruct (Z.ltb_spec (now - t) interval); [reflexivity|lia].
Qed.

(** Calls made within the interval of the last invocation are dropped. *)
Lemma scrolls_dropped calls t s :
  timer s = Some t ->
  Forall (fun c => fst c - t < srcollInterval p) calls ->
  exists s', run throttle_leading p (scrolls calls) s = Js.Ok s' /\
    timer s' = Some t /\ fetched s' = fetched s /\
    currentFetchIndex s' = currentFetchIndex s.
Proof.
  intros Ht Hall. revert s Ht.
  induction Hall as [|[now o] calls Hc _ IH]; intros s Ht; simpl.
  - exists s. auto.
  - simpl in Hc. rewrite onScroll_hook, Ht, (throttle_leading_drop _ _ _ Hc).
    cbn [fst snd Js.bind].
    destruct (IH (write_timer (Some t) (setScrollTop o s)) eq_refl)
      as (s' & Hr & Ht' & Hf & Hi).
    exists s'. auto.
Qed.

(** Calls whose times span less than the interval let at most one
    invocation through. *)
Lemma scrolls_within_interval calls t0 w s :
  w < srcollInterval p ->
  Forall (fun c => t0 <= fst c <= t0 + w) calls ->
  exists s' l, run throttle_leading p (scrolls calls) s = Js.Ok s' /\
    fetched s' = fetched s ++ l /\ (length l <= 1)%nat /\
    (forall f, In f l -> hook p (currentFetchIndex s) = Some f) /\
    currentFetchIndex s' = currentFetchIndex s.
Proof.
  intros Hw Hall. revert s.
  induction Hall as [|[now o] calls Hc Hrest IH]; intros s; simpl.
  - exists s, []. rewrite app_nil_r. repeat split; auto. intros f [].
  - destruct (onScroll_leading now o s) as (s1 & -> & Hi & Hcase). simpl.
    destruct Hcase as [[_ Hf] | [Ht (l & Hf & Hl & Hk)]].
    + destruct (IH s1) as (s' & l & Hr & Hf' & Hl & Hk & Hi').
      exists s', l. rewrite Hr, Hf', Hf, Hi', Hi.
      rewrite Hi in Hk. auto.
    + destruct (scrolls_dropped calls now s1 Ht) as (s' & Hr & _ & Hf' & Hi').
      { eapply Forall_impl; [exact Hrest|]. intros c Hcw.
        simpl in Hcw, Hc. lia. }
      exists s', l. rewrite Hr, Hf', Hf, Hi', Hi. auto.
Qed.

End Burst.

(** C9: with [fetchOnScroll] on and an interval of 200, fifty [onScroll]
    events whose times lie within a window of 50 make the throttled path
    call a [fetchMore] at most once, and only that of the active segment. *)
Theorem burst_fetches_at_most_once (p : MultipleVirtualListProps)
    (calls : list (Z * Z)) (t0 : Z) (s : State (option Z)) :
  fetchOnScroll p = true ->
  srcollInterval p = 200 ->
  length calls = 50%nat ->
  Forall (fun c => t0 <= fst c <= t0 + 50) calls ->
  exists s' l,
    run throttle_leading p (scrolls calls) s = Js.Ok s' /\
    fetched s' = fetched s ++ l /\
    (length l <= 1)%nat /\
    (forall f, In f l -> hook p (currentFetchIndex s) = Some f).
Proof.
  intros _ Hint _ Hall.
  destruct (scrolls_within_interval p calls t0 50 s)
    as (s' & l & Hr & Hf & Hl & Hk & _); [lia|exact Hall|].
  exists s', l. auto.
Qed.

Lemma burst_fetches_at_most_once_witness :
  length Scenario.burst = 50%nat /\
  Forall (fun c => 0 <= fst c <= 0 + 50) Scenario.burst /\
  exists s' l,
    run throttle_leading (default_props Scenario.three)
        (scrolls Scenario.burst) Scenario.measured = Js.Ok s' /\
    fetched s' = fetched Scenario.measured ++ l /\
    (length l <= 1)%nat /\
    (forall f, In f l ->
       hook (default_props Scenario.three)
            (currentFetchIndex Scenario.measured) = Some f).
Proof.
  assert (Hw : Forall (fun c => 0 <= fst c <= 0 + 50) Scenario.burst).
  { apply (bool_decide_unpack _). vm_compute. exact I. }
  split; [reflexivity|]. split; [exact Hw|].
  exact (burst_fetches_at_most_once (default_props Scenario.three)
           Scenario.burst 0 Scenario.measured eq_refl eq_refl eq_refl Hw).
Defined.

(** ** What one event can do *)

Lemma hook_configured (p : MultipleVirtualListProps) (i : Z) (f : nat) :
  hook p i = Some f ->
  configured p f /\ 0 <= i < segmentCount p.
Proof.
  unfold hook. destruct (Js.index (renderConfig p) i) as [d|] eqn:Hd; [|discriminate].
  destruct (fetchMore d) eqn:Hf; try discriminate. intros [= <-].
  split; [|exact (index_in_range _ _ _ Hd)].
  unfold Js.index in Hd. destruct (i <? 0); [discriminate|].
  now exists (Z.to_nat i), d.
Qed.

Lemma render_ext {T} (p : MultipleVirtualListProps) (s s' : State T) :
  _height s' = _height s -> scrollTop s' = scrollTop s ->
  render p s' = render p s.
Proof.
  intros Hh Ho. unfold render. rewrite Hh.
  destruct (Js.truthy_number (_height s)); [|reflexivity].
  f_equal. apply imap_ext. intros i d _. unfold segment_props.
  now rewrite Hh, Ho.
Qed.

Section Effects.

Context {T : Type}.
Variable throttle : Z -> Z -> T -> bool * T.
Variable p : MultipleVirtualListProps.

Implicit Types s : State T.

(** A scroll event sets [scrollTop], leaves the measured height and the
    active index alone, and calls at most the active segment's hook. *)
Lemma scroll_effect now o s :
  exists s' l,
    step throttle p (Scroll now o) s = Js.Ok s' /\
    _height s' = _height s /\ scrollTop s' = o /\
    currentFetchIndex s' = currentFetchIndex s /\
    fetched s' = fetched s ++ l /\
    (l = [] \/
     fetchOnScroll p = true /\
     fst (throttle (srcollInterval p) now (timer s)) = true /\
     exists f, l = [f] /\ hook p (currentFetchIndex s) = Some f).
Proof.
  simpl. rewrite onScroll_hook.
  destruct (fst (throttle (srcollInterval p) now (timer s))) eqn:Hgo;
    [destruct (fetchOnScroll p) eqn:Hon;
       [destruct (hook p (currentFetchIndex s)) as [f|] eqn:Hk|]|].
  - eexists _, [f]. split; [reflexivity|]. simpl. repeat split.
    right. repeat split. now exists f.
  - eexists _, []. split; [reflexivity|]. simpl. rewrite app_nil_r. auto 7.
  - eexists _, []. split; [reflexivity|]. simpl. rewrite app_nil_r. auto 7.
  - eexists _, []. split; [reflexivity|]. simpl. rewrite app_nil_r. auto 7.
Qed.

(** An edge signal of a rendered segment with [fetchOnBottom] off. *)
Lemma edge_step index dataItem s :
  fetchOnBottom p = false ->
  _height s <> 0 ->
  renderConfig p !! index = Some dataItem ->
  step throttle p (Bottom index) s
    = Js.Ok (setCurrentFetchIndex p (Z.of_nat index + 1) s) /\
  step throttle p (Leave index) s
    = Js.Ok (setCurrentFetchIndex p (Z.of_nat index + 1) s).
Proof.
  intros Hb Hh Hd. simpl.
  rewrite !(signal_rendered p _ index s dataItem Hh Hd). simpl.
  unfold onLeave, onBottom. now rewrite Hb.
Qed.

(** A bottom signal never touches React state or the throttle; it either
    calls the segment's own hook ([fetchOnBottom] on) or moves the active
    index past the segment ([fetchOnBottom] off). *)
Lemma bottom_effect index s :
  exists s' l,
    step throttle p (Bottom index) s = Js.Ok s' /\
    _height s' = _height s /\ scrollTop s' = scrollTop s /\
    timer s' = timer s /\
    fetched s' = fetched s ++ l /\
    ((currentFetchIndex s' = currentFetchIndex s /\
      (l = [] \/
       fetchOnBottom p = true /\
       exists f, l = [f] /\ hook p (Z.of_nat index) = Some f)) \/
     (fetchOnBottom p = false /\ l = [] /\
      (index < length (renderConfig p))%nat /\
      currentFetchIndex s'
        = Z.min (Z.of_nat index + 1) (segmentCount p - 1))).
Proof.
  simpl. unfold signal.
  destruct (render p s) as [segments|] eqn:Hr;
    [|exists s, []; rewrite app_nil_r; auto 9].
  destruct (segments !! index) as [v|] eqn:Hv;
    [|exists s, []; rewrite app_nil_r; auto 9].
  destruct (render_segments _ _ _ Hr) as [Hh Hs]. rewrite Hs in Hv.
  apply list_lookup_imap_Some in Hv as (d & Hd & ->). simpl.
  unfold onBottom. destruct (fetchOnBottom p) eqn:Hb.
  - rewrite run_handler_fetch.
    destruct (hook p (Z.of_nat index)) as [f|] eqn:Hk.
    + eexists _, [f]. split; [reflexivity|]. simpl. repeat split.
      left. split; [reflexivity|]. right. split; [reflexivity|]. now exists f.
    + exists s, []. rewrite app_nil_r. auto 9.
  - simpl. eexists _, []. split; [reflexivity|]. simpl. rewrite app_nil_r.
    repeat split. right. repeat split.
    + exact (lookup_lt_Some _ _ _ Hd).
    + destruct (Z.gtb_spec (Z.of_nat index + 1) (segmentCount p - 1)); lia.
Qed.

(** A leave signal never calls a hook. *)
Lemma leave_effect index s :
  exists s',
    step throttle p (Leave index) s = Js.Ok s' /\
    _height s' = _height s /\ scrollTop s' = scrollTop s /\
    timer s' = timer s /\ fetched s' = fetched s /\
    (currentFetchIndex s' = currentFetchIndex s \/
     (fetchOnBottom p = false /\
      (index < length (renderConfig p))%nat /\
      currentFetchIndex s'
        = Z.min (Z.of_nat index + 1) (segmentCount p - 1))).
Proof.
  simpl. unfold signal.
  destruct (render p s) as [segments|] eqn:Hr; [|exists s; auto 9].
  destruct (segments !! index) as [v|] eqn:Hv; [|exists s; auto 9].
  destruct (render_segments _ _ _ Hr) as [Hh Hs]. rewrite Hs in Hv.
  apply list_lookup_imap_Some in Hv as (d & Hd & ->). simpl.
  unfold onLeave, onBottom. destruct (fetchOnBottom p) eqn:Hb.
  - exists s. auto 9.
  - simpl. eexists. split; [reflexivity|]. simpl. repeat split. right.
    repeat split.
    + exact (lookup_lt_Some _ _ _ Hd).
    + destruct (Z.gtb_spec (Z.of_nat index + 1) (segmentCount p - 1)); lia.
Qed.

End Effects.

Section Invariants.

Context {T : Type}.
Variable throttle : Z -> Z -> T -> bool * T.
Variable p : MultipleVirtualListProps.

Implicit Types s : State T.

Lemma host_step_index e s :
  host_event e = true ->
  exists s', step throttle p e s = Js.Ok s' /\
    (currentFetchIndex s' = currentFetchIndex s \/
     fetchOnBottom p = false /\ 1 <= segmentCount p /\
     0 <= currentFetchIndex s' <= segmentCount p - 1).
Proof.
  destruct e as [now o|index|index|rect|val]; intros He; try discriminate.
  - destruct (scroll_effect throttle p now o s) as (s' & l & Hs & _ & _ & Hc & _).
    eauto.
  - destruct (bottom_effect throttle p index s)
      as (s' & l & Hs & _ & _ & _ & _ & [[Hc _] | (Hb & _ & Hi & Hc)]);
      exists s'; (split; [exact Hs|]); [now left|right].
    unfold segmentCount in *. split; [exact Hb|]. lia.
  - destruct (leave_effect throttle p index s)
      as (s' & Hs & _ & _ & _ & _ & [Hc | (Hb & Hi & Hc)]);
      exists s'; (split; [exact Hs|]); [now left|right].
    unfold segmentCount in *. split; [exact Hb|]. lia.
  - eexists. split; [reflexivity|]. now left.
Qed.

Lemma step_fetches e s :
  exists s' l,
    step throttle p e s = Js.Ok s' /\
    fetched s' = fetched s ++ l /\
    (length l <= 1)%nat /\
    Forall (configured p) l /\
    (may_fetch p e = false -> l = []).
Proof.
  destruct e as [now o|index|index|rect|val].
  - destruct (scroll_effect throttle p now o s)
      as (s' & l & Hs & _ & _ & _ & Hf & [-> | (Hon & _ & f & -> & Hk)]);
      exists s'; eexists; (split; [exact Hs|]); (split; [exact Hf|]).
    + simpl. auto.
    + simpl. split; [lia|]. split.
      * constructor; [exact (proj1 (hook_configured _ _ _ Hk))|constructor].
      * congruence.
  - destruct (bottom_effect throttle p index s)
      as (s' & l & Hs & _ & _ & _ & Hf &
          [[_ [-> | (Hb & f & -> & Hk)]] | (_ & -> & _)]);
      exists s'; eexists; (split; [exact Hs|]); (split; [exact Hf|]);
      simpl; auto.
    split; [lia|]. split.
    + constructor; [exact (proj1 (hook_configured _ _ _ Hk))|constructor].
    + congruence.
  - destruct (leave_effect throttle p index s) as (s' & Hs & _ & _ & _ & Hf & _).
    exists s', []. rewrite app_nil_r. simpl. auto.
  - eexists _, []. split; [reflexivity|]. simpl. rewrite app_nil_r. auto.
  - eexists _, []. split; [reflexivity|]. simpl. rewrite app_nil_r. auto.
Qed.

End Invariants.

(** ** Invariants of a mounted instance *)

(** X2: with [fetchOnBottom] on, no host event ever writes the active
    index: [setCurrentFetchIndex] is unreachable, and the scroll path keeps
    asking the segment the index started at. *)
Theorem fetchOnBottom_freezes_index {T} (throttle : Z -> Z -> T -> bool * T)
    (p : MultipleVirtualListProps) (es : list event) (s : State T) :
  fetchOnBottom p = true ->
  forallb host_event es = true ->
  exists s',
    run throttle p es s = Js.Ok s' /\
    currentFetchIndex s' = currentFetchIndex s.
Proof.
  intros Hb Hes. revert s. induction es as [|e es IH]; intros s; simpl.
  - exists s. auto.
  - simpl in Hes. apply andb_true_iff in Hes as [He Hes].
    destruct (host_step_index throttle p e s He) as (s1 & -> & H1). simpl.
    destruct (IH Hes s1) as (s' & Hr & Hc). exists s'. split; [exact Hr|].
    destruct H1 as [H1 | (Hb' & _)]; congruence.
Qed.

Lemma fetchOnBottom_freezes_index_witness :
  exists s',
    run throttle_leading
      {| renderConfig := Scenario.three; boundary := 0; fetchOnScroll := true;
         srcollInterval := 200; fetchOnBottom := true |}
      [Measure (Some 300); Bottom 1; Leave 1; Scroll 3 700; Bottom 2]
      (mount None) = Js.Ok s' /\
    currentFetchIndex s' = currentFetchIndex (mount (@None Z)).
Proof.
  apply (fetchOnBottom_freezes_index throttle_leading
    {| renderConfig := Scenario.three; boundary := 0; fetchOnScroll := true;
       srcollInterval := 200; fetchOnBottom := true |}
    [Measure (Some 300); Bottom 1; Leave 1; Scroll 3 700; Bottom 2]
    (mount None)); reflexivity.
Defined.

(** ** How the handlers compose *)

(** X5: with [fetchOnBottom] off the active index remembers nothing but the
    last edge signal: a signal of segment [i] followed by a signal of segment
    [j] leaves the instance as the signal of [j] alone would. *)
Theorem last_edge_signal_wins {T} (throttle : Z -> Z -> T -> bool * T)
    (p : MultipleVirtualListProps) (s : State T) i j di dj e1 e2 :
  fetchOnBottom p = false ->
  _height s <> 0 ->
  renderConfig p !! i = Some di ->
  renderConfig p !! j = Some dj ->
  e1 = Bottom i \/ e1 = Leave i ->
  e2 = Bottom j \/ e2 = Leave j ->
  run throttle p [e1; e2] s = run throttle p [e2] s /\
  run throttle p [e2] s
    = Js.Ok (setCurrentFetchIndex p (Z.of_nat j + 1) s).
Proof.
  intros Hb Hh Hi Hj He1 He2.
  destruct (edge_step throttle p i di s Hb Hh Hi) as [Hbi Hli].
  destruct (edge_step throttle p j dj s Hb Hh Hj) as [Hbj Hlj].
  destruct (edge_step throttle p j dj
              (setCurrentFetchIndex p (Z.of_nat i + 1) s) Hb Hh Hj)
    as [Hbj' Hlj'].
  assert (H2 : step throttle p e2 s
               = Js.Ok (setCurrentFetchIndex p (Z.of_nat j + 1) s))
    by (destruct He2 as [-> | ->]; assumption).
  assert (H1 : step throttle p e1 s
               = Js.Ok (setCurrentFetchIndex p (Z.of_nat i + 1) s))
    by (destruct He1 as [-> | ->]; assumption).
  assert (H12 : step throttle p e2 (setCurrentFetchIndex p (Z.of_nat i + 1) s)
                = Js.Ok (setCurrentFetchIndex p (Z.of_nat j + 1) s))
    by (destruct He2 as [-> | ->]; assumption).
  cbn [run]. rewrite H1, H2. cbn. rewrite H12. cbn. auto.
Qed.

Lemma last_edge_signal_wins_witness :
  run throttle_leading (default_props Scenario.three) [Leave 1; Bottom 0]
      Scenario.measured
  = run throttle_leading (default_props Scenario.three) [Bottom 0]
        Scenario.measured /\
  run throttle_leading (default_props Scenario.three) [Bottom 0]
      Scenario.measured
  = Js.Ok (setCurrentFetchIndex (default_props Scenario.three)
             (Z.of_nat 0 + 1) Scenario.measured).
Proof.
  apply (last_edge_signal_wins throttle_leading (default_props Scenario.three)
           Scenario.measured 1%nat 0%nat
           (Scenario.segment 5 (Js.Function 1))
           (Scenario.segment 10 (Js.Function 0)) (Leave 1) (Bottom 0)).
  - reflexivity.
  - vm_compute. discriminate.
  - reflexivity.
  - reflexivity.
  - right. reflexivity.
  - left. reflexivity.
Defined.

(** X7: with [fetchOnBottom] on, the bottom signal of a segment that has no
    callable [fetchMore] (or of no segment at all) changes nothing and does
    not fault. *)
Theorem bottom_without_hook {T} (throttle : Z -> Z -> T -> bool * T)
    (p : MultipleVirtualListProps) (s : State T) index :
  fetchOnBottom p = true ->
  (forall dataItem,
     renderConfig p !! index = Some dataItem ->
     Js.typeof (fetchMore dataItem) <> Js.TFunction) ->
  step throttle p (Bottom index) s = Js.Ok s /\
  run_handler p (onBottom p index) s = Js.Ok s.
Proof.
  intros Hb Hno.
  assert (Hk : hook p (Z.of_nat index) = None).
  { apply hook_typeof. intros d Hd. rewrite index_of_nat in Hd. auto. }
  assert (Hh : run_handler p (onBottom p index) s = Js.Ok s).
  { unfold onBottom. now rewrite Hb, run_handler_fetch, Hk. }
  split; [|exact Hh].
  simpl. unfold signal.
  destruct (render p s) as [segments|] eqn:Hr; [|reflexivity].
  destruct (segments !! index) as [v|] eqn:Hv; [|reflexivity].
  destruct (render_segments _ _ _ Hr) as [_ Hs]. rewrite Hs in Hv.
  apply list_lookup_imap_Some in Hv as (d & Hd & ->). exact Hh.
Qed.

Lemma bottom_without_hook_witness :
  step throttle_leading
    {| renderConfig := Scenario.four; boundary := 0; fetchOnScroll := true;
       srcollInterval := 200; fetchOnBottom := true |}
    (Bottom 2) Scenario.measured = Js.Ok Scenario.measured.
Proof.
  refine (proj1 (bottom_without_hook throttle_leading
    {| renderConfig := Scenario.four; boundary := 0; fetchOnScroll := true;
       srcollInterval := 200; fetchOnBottom := true |}
    Scenario.measured 2%nat eq_refl _)).
  intros dataItem H. vm_compute in H. injection H as <-. discriminate.
Defined.

(** ** Rendering *)

(** X8: when the segments are rendered there is one per descriptor, in
    configuration order, keyed by its position [0, 1, ...]; all of them are
    given the same [outerHeight] (the measured height), the same [scrollTop]
    (the container's offset, not an offset local to the segment) and the same
    [boundary]. *)
Theorem render_shape {T} (p : MultipleVirtualListProps) (s : State T) segments :
  render p s = Some segments ->
  MVirtualList.key <$> segments = seq 0 (length (renderConfig p)) /\
  MVirtualList.dataLength <$> segments = dataLength <$> renderConfig p /\
  Forall (fun v => MVirtualList.outerHeight v = _height s /\
                   MVirtualList.scrollTop v = scrollTop s /\
                   MVirtualList.boundary v = boundary p) segments.
Proof.
  intros Hr. apply render_segments in Hr as [_ ->]. split; [|split].
  - rewrite fmap_imap.
    rewrite (imap_ext _ (fun j _ => j)); [|reflexivity].
    rewrite (imap_seq_0 (renderConfig p) (fun j => j)).
    apply list_fmap_id.
  - rewrite fmap_imap. apply list_eq. intros i.
    now rewrite list_lookup_imap, list_lookup_fmap.
  - apply Forall_forall. intros v Hv.
    apply list_elem_of_lookup in Hv as [i Hv].
    apply list_lookup_imap_Some in Hv as (d & _ & ->). auto.
Qed.

Lemma render_shape_witness :
  exists segments,
    render (default_props Scenario.three) Scenario.measured = Some segments /\
    MVirtualList.key <$> segments = [0; 1; 2]%nat /\
    MVirtualList.dataLength <$> segments = [10; 5; 20].
Proof.
  eexists. split; [reflexivity|].
  destruct (render_shape (default_props Scenario.three) Scenario.measured
              _ eq_refl) as (Hk & Hd & _).
  split; [exact Hk|exact Hd].
Defined.

(** X9: edge signals, the fetches they make and [setCurrentFetchIndex] never
    change what is rendered (every segment is given the same props after the
    event as before it) and never touch the throttle of the scroll path. *)
Theorem render_ignores_ref_events {T} (throttle : Z -> Z -> T -> bool * T)
    (p : MultipleVirtualListProps) (e : event) (s : State T) :
  sets_state e = false ->
  exists s',
    step throttle p e s = Js.Ok s' /\
    render p s' = render p s /\
    scrollTop s' = scrollTop s /\ _height s' = _height s /\
    timer s' = timer s.
Proof.
  destruct e as [now o|index|index|rect|val]; intros He; try discriminate.
  - destruct (bottom_effect throttle p index s)
      as (s' & l & Hs & Hh & Ho & Ht & _).
    exists s'. split; [exact Hs|]. split; [apply render_ext|]; auto.
  - destruct (leave_effect throttle p index s) as (s' & Hs & Hh & Ho & Ht & _).
    exists s'. split; [exact Hs|]. split; [apply render_ext|]; auto.
  - eexists. split; [reflexivity|]. split; [apply render_ext|]; auto.
Qed.

Lemma render_ignores_ref_events_witness :
  exists s',
    step throttle_leading (default_props Scenario.three) (Bottom 1)
         Scenario.measured = Js.Ok s' /\
    render (default_props Scenario.three) s'
      = render (default_props Scenario.three) Scenario.measured.
Proof.
  destruct (render_ignores_ref_events throttle_leading
              (default_props Scenario.three) (Bottom 1) Scenario.measured
              eq_refl) as (s' & Hs & Hr & _).
  exists s'. auto.
Defined.

(** X11: when the measuring effect finds no attached container, or a
    container of height [0], it commits [0]: nothing is rendered afterwards,
    even if segments were rendered before; offset, active index and fetch log
    are kept. *)
Theorem measure_without_extent {T} (throttle : Z -> Z -> T -> bool * T)
    (p : MultipleVirtualListProps) (rect : option Z) (s : State T) :
  rect = None \/ rect = Some 0 ->
  exists s',
    step throttle p (Measure rect) s = Js.Ok s' /\
    _height s' = 0 /\
    render p s' = None /\
    scrollTop s' = scrollTop s /\
    currentFetchIndex s' = currentFetchIndex s /\
    fetched s' = fetched s.
Proof.
  intros Hrect. exists (measure rect s). split; [reflexivity|].
  assert (Hh : _height (measure rect s) = 0)
    by (destruct Hrect as [-> | ->]; reflexivity).
  split; [exact Hh|]. split; [|auto].
  unfold render. now rewrite Hh.
Qed.

Lemma measure_without_extent_witness :
  exists s',
    step throttle_leading (default_props Scenario.three) (Measure None)
         Scenario.measured = Js.Ok s' /\
    _height s' = 0 /\
    render (default_props Scenario.three) s' = None.
Proof.
  destruct (measure_without_extent throttle_leading
              (default_props Scenario.three) None Scenario.measured
              (or_introl eq_refl)) as (s' & Hs & Hh & Hr & _).
  exists s'. auto.
Defined.

(** X12: the container's style height is the measured height exactly when
    the segments are rendered; until then it is the [height] prop as given
    (for instance a percentage string). *)
Theorem container_height_follows_render {T} (p : MultipleVirtualListProps)
    (width height : Js.value) (s : State T) :
  (render p s = None ->
   Style.height (container_style width height s) = height) /\
  (forall segments, render p s = Some segments ->
   Style.height (container_style width height s) = Js.Number (_height s) /\
   _height s <> 0).
Proof.
  unfold render, container_style. simpl.
  destruct (Js.truthy_number (_height s)) eqn:Ht; split;
    try discriminate; try reflexivity.
  intros segments _. split; [reflexivity|].
  unfold Js.truthy_number in Ht. intros H0. now rewrite H0 in Ht.
Qed.

Lemma container_height_follows_render_witness :
  Style.height (container_style Js.Undefined (Js.Str "100%") (mount (@None Z)))
    = Js.Str "100%" /\
  Style.height (container_style Js.Undefined (Js.Str "100%") Scenario.measured)
    = Js.Number 300.
Proof.
  split.
  - exact (proj1 (container_height_follows_render
             (default_props Scenario.three) Js.Undefined (Js.Str "100%")
             (mount None)) eq_refl).
  - exact (proj1 (proj2 (container_height_follows_render
             (default_props Scenario.three) Js.Undefined (Js.Str "100%")
             Scenario.measured) _ eq_refl)).
Defined.

(** ** The imperative handle *)

(** X13: [scrollTo] does nothing while the container is not attached;
    otherwise it makes exactly one [scrollTo] call on the container, whose
    [top] is the requested value whatever the config, and whose [behavior]
    is ['smooth'] exactly when a config with [animation] true was passed. *)
Theorem scrollTo_call (val : Z) (config : option ScrollToConfig)
    (calls : list Dom.ScrollToOptions) :
  scrollTo val config None = None /\
  exists o,
    scrollTo val config (Some calls) = Some (calls ++ [o]) /\
    Dom.top o = val /\
    (Dom.behavior o = Some Dom.smooth <-> config = Some {| animation := true |}) /\
    (Dom.behavior o = None <->
       config = None \/ config = Some {| animation := false |}).
Proof.
  split; [reflexivity|].
  destruct config as [[[|]]|]; simpl; eexists; (split; [reflexivity|]);
    simpl; (split; [reflexivity|]); split; split;
    try discriminate; try reflexivity; auto;
    intros [H|H]; discriminate.
Qed.

(** ** The active index after a sequence of requests *)

Lemma last_request_cons (p : MultipleVirtualListProps) (h : Z) (e : event)
    (es : list event) :
  last_request p h (e :: es) =
  match last_request p h es with
  | Some v => Some v
  | None => request p h e
  end.
Proof.
  unfold last_request. simpl.
  assert (Hacc : forall acc,
    fold_left (fun acc e0 => match request p h e0 with
                             | Some v => Some v
                             | None => acc
                             end) es acc =
    match fold_left (fun acc e0 => match request p h e0 with
                                   | Some v => Some v
                                   | None => acc
                                   end) es None with
    | Some v => Some v
    | None => acc
    end).
  { induction es as [|e' es IH]; intros acc; simpl; [reflexivity|].
    rewrite (IH (match request p h e' with Some v => Some v | None => acc end)).
    rewrite (IH (match request p h e' with Some v => Some v | None => None end)).
    destruct (fold_left _ es None); [reflexivity|].
    now destruct (request p h e'). }
  rewrite Hacc. destruct (fold_left _ es None); [reflexivity|].
  now destruct (request p h e).
Qed.

Section Requests.

Context {T : Type}.
Variable throttle : Z -> Z -> T -> bool * T.
Variable p : MultipleVirtualListProps.

Implicit Types s : State T.

(** A segment that is not rendered sends no signal. *)
Lemma signal_unrendered prop index s :
  _height s = 0 \/ (length (renderConfig p) <= index)%nat ->
  signal p prop index s = Js.Ok s.
Proof.
  intros Hno. unfold signal.
  destruct (render p s) as [segments|] eqn:Hr; [|reflexivity].
  destruct (render_segments _ _ _ Hr) as [Hh ->].
  destruct Hno as [H0 | Hge]; [contradiction|].
  rewrite list_lookup_imap, (lookup_ge_None_2 _ _ Hge). reflexivity.
Qed.

(** A direct call or an edge signal stores its request, clamped from above,
    whatever was stored; an event that makes no request leaves the index. *)
Lemma index_event_effect e s :
  index_event e = true ->
  exists s',
    step throttle p e s = Js.Ok s' /\
    _height s' = _height s /\
    currentFetchIndex s' =
      match request p (_height s) e with
      | Some v => Z.min v (segmentCount p - 1)
      | None => currentFetchIndex s
      end.
Proof.
  assert (Hclamp : forall v,
    currentFetchIndex (setCurrentFetchIndex p v s)
    = Z.min v (segmentCount p - 1)).
  { intros v. simpl. destruct (Z.gtb_spec v (segmentCount p - 1)); lia. }
  assert (Hedge : forall index,
    fetchOnBottom p = false ->
    Js.truthy_number (_height s)
      && Nat.ltb index (length (renderConfig p)) = true ->
    step throttle p (Bottom index) s
      = Js.Ok (setCurrentFetchIndex p (Z.of_nat index + 1) s) /\
    step throttle p (Leave index) s
      = Js.Ok (setCurrentFetchIndex p (Z.of_nat index + 1) s)).
  { intros index Hb Hr. apply andb_true_iff in Hr as [Hh Hi].
    apply Nat.ltb_lt in Hi.
    destruct (lookup_lt_is_Some_2 _ _ Hi) as [d Hd].
    apply (edge_step throttle p index d s Hb); [|exact Hd].
    unfold Js.truthy_number in Hh. intros H0. now rewrite H0 in Hh. }
  assert (Hnone : forall index prop,
    Js.truthy_number (_height s)
      && Nat.ltb index (length (renderConfig p)) = false ->
    signal p prop index s = Js.Ok s).
  { intros index prop Hr. apply signal_unrendered.
    apply andb_false_iff in Hr as [Hh | Hi].
    - left. unfold Js.truthy_number in Hh.
      destruct (Z.eqb_spec (_height s) 0); [assumption|discriminate].
    - right. apply Nat.ltb_ge in Hi. exact Hi. }
  destruct e as [now o|index|index|rect|val]; intros He; try discriminate;
    unfold request.
  - destruct (fetchOnBottom p) eqn:Hb.
    + destruct (bottom_effect throttle p index s)
        as (s' & l & Hs & Hh & _ & _ & _ & [[Hc _] | (Hb' & _)]);
        [|congruence].
      exists s'. auto.
    + destruct (Js.truthy_number (_height s)
                && Nat.ltb index (length (renderConfig p))) eqn:Hr.
      * destruct (Hedge index eq_refl Hr) as [-> _]. eexists.
        split; [reflexivity|]. split; [reflexivity|]. apply Hclamp.
      * exists s. split; [exact (Hnone index _ Hr)|]. auto.
  - destruct (fetchOnBottom p) eqn:Hb.
    + destruct (leave_effect throttle p index s)
        as (s' & Hs & Hh & _ & _ & _ & [Hc | (Hb' & _)]); [|congruence].
      exists s'. auto.
    + destruct (Js.truthy_number (_height s)
                && Nat.ltb index (length (renderConfig p))) eqn:Hr.
      * destruct (Hedge index eq_refl Hr) as [_ ->]. eexists.
        split; [reflexivity|]. split; [reflexivity|]. apply Hclamp.
      * exists s. split; [exact (Hnone index _ Hr)|]. auto.
  - eexists. split; [reflexivity|]. split; [reflexivity|]. apply Hclamp.
Qed.

End Requests.

(** C1, amended: for every sequence of [setCurrentFetchIndex] calls and
    bottom or leave signals, the stored index after the sequence is the last
    request it made, clamped from above at [segmentCount - 1] (the request of
    an edge signal of the segment at position [index] is [index + 1]),
    whatever was stored before; so after every update it is at most
    [segmentCount - 1].  It is not non-decreasing: an update lowers it
    whenever its clamped request is below the stored value. *)
Theorem currentFetchIndex_follows_last_request {T}
    (throttle : Z -> Z -> T -> bool * T)
    (p : MultipleVirtualListProps) (es : list event) (s : State T) :
  forallb index_event es = true ->
  exists s',
    run throttle p es s = Js.Ok s' /\
    currentFetchIndex s' =
      match last_request p (_height s) es with
      | Some v => Z.min v (segmentCount p - 1)
      | None => currentFetchIndex s
      end /\
    (last_request p (_height s) es <> None ->
     currentFetchIndex s' <= segmentCount p - 1) /\
    (forall val,
       Z.min val (segmentCount p - 1) < currentFetchIndex s ->
       currentFetchIndex (setCurrentFetchIndex p val s) < currentFetchIndex s).
Proof.
  intros Hes.
  assert (Hrun : exists s',
    run throttle p es s = Js.Ok s' /\
    currentFetchIndex s' =
      match last_request p (_height s) es with
      | Some v => Z.min v (segmentCount p - 1)
      | None => currentFetchIndex s
      end).
  { revert s. induction es as [|e es IH]; intros s.
    - exists s. split; reflexivity.
    - simpl in Hes. apply andb_true_iff in Hes as [He Hes].
      destruct (index_event_effect throttle p e s He) as (s1 & Hs1 & Hh & Hc).
      destruct (IH Hes s1) as (s' & Hr & Hc').
      exists s'. split.
      + cbn [run]. rewrite Hs1. exact Hr.
      + rewrite Hc', Hh, last_request_cons.
        destruct (last_request p (_height s) es); [reflexivity|].
        exact Hc. }
  destruct Hrun as (s' & Hr & Hc). exists s'.
  split; [exact Hr|]. split; [exact Hc|]. split.
  - intros Hsome. rewrite Hc.
    destruct (last_request p (_height s) es); [lia|contradiction].
  - intros val Hlt. simpl.
    destruct (Z.gtb_spec val (segmentCount p - 1)); lia.
Qed.

Lemma currentFetchIndex_follows_last_request_witness :
  exists s',
    run throttle_leading (default_props Scenario.three)
        [Bottom 1; SetCurrentFetchIndex 9; Leave 0] Scenario.measured
      = Js.Ok s' /\
    last_request (default_props Scenario.three) (_height Scenario.measured)
        [Bottom 1; SetCurrentFetchIndex 9; Leave 0] = Some 1 /\
    currentFetchIndex s' = 1.
Proof.
  destruct (currentFetchIndex_follows_last_request throttle_leading
              (default_props Scenario.three)
              [Bottom 1; SetCurrentFetchIndex 9; Leave 0] Scenario.measured
              eq_refl) as (s' & Hr & Hc & _).
  exists s'. split; [exact Hr|]. split; [reflexivity|exact Hc].
Defined.

(** ** An instance through its re-renders *)

Section Life.

Context {T : Type}.
Variable throttle : Z -> Z -> T -> bool * T.

Implicit Types m : Mounted T.

Lemma closure_props_cases m e :
  closure_props m e = first_props m \/ closure_props m e = props m.
Proof. destruct e; simpl; auto. Qed.

(** What one occurrence does to the props of an instance. *)
Lemma occur_props oc m m' :
  occur throttle oc m = Js.Ok m' ->
  first_props m' = first_props m /\
  props m' = match oc with Rerender p' => p' | Deliver _ => props m end.
Proof.
  destruct oc as [e|p']; simpl.
  - destruct (step throttle (closure_props m e) e (inner m)) as [s'|err];
      simpl; [|discriminate].
    intros [= <-]. auto.
  - intros [= <-]. auto.
Qed.

Lemma occur_deliver e m s' :
  step throttle (closure_props m e) e (inner m) = Js.Ok s' ->
  occur throttle (Deliver e) m
  = Js.Ok {| first_props := first_props m; props := props m; inner := s' |}.
Proof. intros Hs. simpl. now rewrite Hs. Qed.

Lemma occur_index n oc m :
  keeps_segments n oc = true ->
  length (renderConfig (props m)) = n ->
  0 <= currentFetchIndex (inner m) <= Z.max 0 (Z.of_nat n - 1) ->
  exists m',
    occur throttle oc m = Js.Ok m' /\
    first_props m' = first_props m /\
    length (renderConfig (props m')) = n /\
    0 <= currentFetchIndex (inner m') <= Z.max 0 (Z.of_nat n - 1).
Proof.
  intros Hk Hn Hv. destruct oc as [e|p'].
  - assert (Hs : exists s',
      step throttle (closure_props m e) e (inner m) = Js.Ok s' /\
      0 <= currentFetchIndex s' <= Z.max 0 (Z.of_nat n - 1)).
    { destruct e as [now o|index|index|rect|val]; try discriminate.
      - destruct (scroll_effect throttle (first_props m) now o (inner m))
          as (s' & l & Hs & _ & _ & Hc & _).
        exists s'. split; [exact Hs|]. now rewrite Hc.
      - destruct (host_step_index throttle (props m) (Bottom index) (inner m)
                    eq_refl) as (s' & Hs & [Hc | (_ & H1 & Hc)]);
          exists s'; (split; [exact Hs|]).
        + now rewrite Hc.
        + unfold segmentCount in *. rewrite Hn in *. lia.
      - destruct (host_step_index throttle (props m) (Leave index) (inner m)
                    eq_refl) as (s' & Hs & [Hc | (_ & H1 & Hc)]);
          exists s'; (split; [exact Hs|]).
        + now rewrite Hc.
        + unfold segmentCount in *. rewrite Hn in *. lia.
      - eexists. split; [reflexivity|]. exact Hv. }
    destruct Hs as (s' & Hs & Hv'). eexists.
    split; [exact (occur_deliver e m s' Hs)|]. simpl. auto.
  - simpl in Hk. apply Nat.eqb_eq in Hk. eexists.
    split; [reflexivity|]. simpl. auto.
Qed.

Lemma occur_fetches oc m :
  exists m' l,
    occur throttle oc m = Js.Ok m' /\
    fetched (inner m') = fetched (inner m) ++ l /\
    (length l <= deliveries [oc])%nat /\
    Forall (fun f => configured (first_props m) f \/ configured (props m) f) l /\
    (quiet (first_props m) (props m) [oc] = true -> l = []).
Proof.
  destruct oc as [e|p'].
  - destruct (step_fetches throttle (closure_props m e) e (inner m))
      as (s' & l & Hs & Hf & Hl & Hc & Hq).
    eexists _, l. split; [exact (occur_deliver e m s' Hs)|]. simpl.
    split; [exact Hf|]. split; [exact Hl|]. split.
    + eapply Forall_impl; [exact Hc|]. simpl. intros f Hcf.
      destruct (closure_props_cases m e) as [<- | <-]; auto.
    + intros Hquiet. apply Hq. rewrite andb_true_r in Hquiet.
      apply negb_true_iff in Hquiet. destruct e; exact Hquiet.
  - eexists _, []. split; [reflexivity|]. simpl. rewrite app_nil_r. auto.
Qed.

End Life.

(** X1: as long as every render passes a [renderConfig] of the same
    length [n], host events and re-renders keep the active index between [0]
    and the last segment index ([0] when there is no segment); with at least
    one segment the index therefore meets a segment both in the current
    [renderConfig] and in the first render's, which the scroll path reads. *)
Theorem index_valid_while_segments_kept {T} (throttle : Z -> Z -> T -> bool * T)
    (n : nat) (ocs : list occurrence) (m : Mounted T) :
  length (renderConfig (first_props m)) = n ->
  length (renderConfig (props m)) = n ->
  forallb (keeps_segments n) ocs = true ->
  0 <= currentFetchIndex (inner m) <= Z.max 0 (Z.of_nat n - 1) ->
  exists m',
    life throttle ocs m = Js.Ok m' /\
    0 <= currentFetchIndex (inner m') <= Z.max 0 (Z.of_nat n - 1) /\
    (n <> 0%nat ->
     (exists dataItem,
        Js.index (renderConfig (props m')) (currentFetchIndex (inner m'))
        = Some dataItem) /\
     (exists dataItem,
        Js.index (renderConfig (first_props m')) (currentFetchIndex (inner m'))
        = Some dataItem)).
Proof.
  intros Hf Hn Hocs Hv.
  assert (Hrun : exists m',
    life throttle ocs m = Js.Ok m' /\
    first_props m' = first_props m /\
    length (renderConfig (props m')) = n /\
    0 <= currentFetchIndex (inner m') <= Z.max 0 (Z.of_nat n - 1)).
  { clear Hf. revert m Hn Hv.
    induction ocs as [|oc ocs IH]; intros m Hn Hv.
    - exists m. auto.
    - simpl in Hocs. apply andb_true_iff in Hocs as [Hoc Hocs].
      destruct (occur_index throttle n oc m Hoc Hn Hv)
        as (m1 & Hm1 & Hf1 & Hn1 & Hv1).
      destruct (IH Hocs m1 Hn1 Hv1) as (m' & Hr & Hf' & Hn' & Hv').
      exists m'. split; [cbn [life]; rewrite Hm1; exact Hr|].
      split; [congruence|]. auto. }
  destruct Hrun as (m' & Hr & Hf' & Hn' & Hv'). exists m'.
  split; [exact Hr|]. split; [exact Hv'|]. intros Hne.
  assert (Hlook : forall cfg : MvlConfig, length cfg = n ->
    exists dataItem,
      Js.index cfg (currentFetchIndex (inner m')) = Some dataItem).
  { intros cfg Hcfg. unfold Js.index.
    destruct (Z.ltb_spec (currentFetchIndex (inner m')) 0) as [|_]; [lia|].
    apply lookup_lt_is_Some_2. lia. }
  split; apply Hlook; congruence.
Qed.

Lemma index_valid_while_segments_kept_witness :
  exists m',
    life throttle_leading
      [Deliver (Measure (Some 300)); Deliver (Bottom 1);
       Rerender (default_props Scenario.three); Deliver (Scroll 3 700);
       Deliver (Leave 2)]
      (mounted (default_props Scenario.three) None) = Js.Ok m' /\
    0 <= currentFetchIndex (inner m') <= Z.max 0 (Z.of_nat 3 - 1).
Proof.
  destruct (index_valid_while_segments_kept throttle_leading 3
              [Deliver (Measure (Some 300)); Deliver (Bottom 1);
               Rerender (default_props Scenario.three); Deliver (Scroll 3 700);
               Deliver (Leave 2)]
              (mounted (default_props Scenario.three) None)
              eq_refl eq_refl eq_refl) as (m' & Hr & Hv & _).
  - vm_compute. split; discriminate.
  - exists m'. auto.
Defined.

(** X3: through any sequence of events and re-renders, every function the
    component calls is the [fetchMore] of a segment of a [renderConfig] it
    was rendered with (the first render's, the one current at the start, or
    one passed by a re-render of the sequence), and at most one call is made
    per delivered event. *)
Theorem calls_are_rendered_hooks {T} (throttle : Z -> Z -> T -> bool * T)
    (ocs : list occurrence) (m : Mounted T) :
  exists m' l,
    life throttle ocs m = Js.Ok m' /\
    fetched (inner m') = fetched (inner m) ++ l /\
    (length l <= deliveries ocs)%nat /\
    Forall (fun f => exists q,
              In q (first_props m :: props m :: rerenders ocs) /\
              configured q f) l.
Proof.
  revert m. induction ocs as [|oc ocs IH]; intros m.
  - exists m, []. simpl. rewrite app_nil_r. auto.
  - destruct (occur_fetches throttle oc m)
      as (m1 & l1 & Hm1 & Hf1 & Hl1 & Hc1 & _).
    destruct (IH m1) as (m' & l & Hr & Hf & Hl & Hc).
    destruct (occur_props throttle oc m m1 Hm1) as [Hfirst Hprops].
    exists m', (l1 ++ l).
    split; [cbn [life]; rewrite Hm1; exact Hr|].
    split; [now rewrite Hf, Hf1, app_assoc|].
    split.
    { rewrite length_app. destruct oc; simpl in *; lia. }
    apply Forall_app. split.
    + eapply Forall_impl; [exact Hc1|]. simpl.
      intros f [Hq | Hq]; eexists; (split; [|exact Hq]); simpl; auto.
    + eapply Forall_impl; [exact Hc|]. simpl.
      intros f (q & Hin & Hq). exists q. split; [|exact Hq].
      rewrite Hfirst, Hprops in Hin.
      destruct oc as [e|p']; simpl in *; tauto.
Qed.

(** X4: a hook is called only by a scroll event when the first render had
    [fetchOnScroll] on (the scroll closure keeps that render's flag), or by a
    bottom signal when the current render has [fetchOnBottom] on; a sequence
    with no such event calls nothing.  Leave signals, measuring,
    [setCurrentFetchIndex] and re-renders never fetch. *)
Theorem no_fetch_without_enabled_closure {T}
    (throttle : Z -> Z -> T -> bool * T)
    (ocs : list occurrence) (m : Mounted T) :
  quiet (first_props m) (props m) ocs = true ->
  exists m',
    life throttle ocs m = Js.Ok m' /\
    fetched (inner m') = fetched (inner m).
Proof.
  revert m. induction ocs as [|oc ocs IH]; intros m Hq.
  - exists m. auto.
  - destruct (occur_fetches throttle oc m)
      as (m1 & l1 & Hm1 & Hf1 & _ & _ & Hnil).
    destruct (occur_props throttle oc m m1 Hm1) as [Hfirst Hprops].
    assert (Hq1 : quiet (first_props m) (props m) [oc] = true /\
                  quiet (first_props m1) (props m1) ocs = true).
    { rewrite Hfirst, Hprops. destruct oc as [e|p']; simpl in *.
      - apply andb_true_iff in Hq as [He Hq]. rewrite He. auto.
      - auto. }
    destruct Hq1 as [Hoc Hrest].
    rewrite (Hnil Hoc), app_nil_r in Hf1.
    destruct (IH m1 Hrest) as (m' & Hr & Hf).
    exists m'. split; [cbn [life]; rewrite Hm1; exact Hr|]. congruence.
Qed.

Lemma no_fetch_without_enabled_closure_witness :
  exists m',
    life throttle_leading
      [Deliver (Measure (Some 300)); Deliver (Scroll 0 120);
       Rerender (default_props Scenario.three); Deliver (Bottom 0);
       Deliver (Leave 1); Deliver (Scroll 400 900)]
      (mounted
         {| renderConfig := Scenario.three; boundary := 0;
            fetchOnScroll := false; srcollInterval := 200;
            fetchOnBottom := false |} None) = Js.Ok m' /\
    fetched (inner m') = [].
Proof.
  apply (no_fetch_without_enabled_closure throttle_leading
    [Deliver (Measure (Some 300)); Deliver (Scroll 0 120);
     Rerender (default_props Scenario.three); Deliver (Bottom 0);
     Deliver (Leave 1); Deliver (Scroll 400 900)]
    (mounted
       {| renderConfig := Scenario.three; boundary := 0;
          fetchOnScroll := false; srcollInterval := 200;
          fetchOnBottom := false |} None)).
  reflexivity.
Defined.

(** X6: with [fetchOnBottom] off in the current render and [fetchOnScroll]
    on in the first, after the bottom or leave signal of a rendered segment
    [i] that is not the last, the next scroll event that passes the throttle
    calls exactly the [fetchMore] that the first render's [renderConfig]
    holds at position [i + 1]: the edge closure clamps by the current
    configuration, the scroll closure reads the first render's. *)
Theorem scroll_after_edge_fetches_first_render_hook {T}
    (throttle : Z -> Z -> T -> bool * T)
    (m : Mounted T) i di dnext f e now o :
  fetchOnBottom (props m) = false ->
  fetchOnScroll (first_props m) = true ->
  _height (inner m) <> 0 ->
  renderConfig (props m) !! i = Some di ->
  (S i < length (renderConfig (props m)))%nat ->
  renderConfig (first_props m) !! S i = Some dnext ->
  fetchMore dnext = Js.Function f ->
  e = Bottom i \/ e = Leave i ->
  fst (throttle (srcollInterval (first_props m)) now (timer (inner m))) = true ->
  exists m',
    life throttle [Deliver e; Deliver (Scroll now o)] m = Js.Ok m' /\
    fetched (inner m') = fetched (inner m) ++ [f] /\
    currentFetchIndex (inner m') = Z.of_nat (S i) /\
    scrollTop (inner m') = o.
Proof.
  intros Hb Hon Hh Hi Hlt Hn Hf He Hgo.
  destruct (edge_step throttle (props m) i di (inner m) Hb Hh Hi) as [Hbi Hli].
  assert (Hc : currentFetchIndex
                 (setCurrentFetchIndex (props m) (Z.of_nat i + 1) (inner m))
               = Z.of_nat (S i)).
  { simpl. unfold segmentCount.
    destruct (Z.gtb_spec (Z.of_nat i + 1)
                (Z.of_nat (length (renderConfig (props m))) - 1)); lia. }
  assert (H1 : occur throttle (Deliver e) m
               = Js.Ok {| first_props := first_props m; props := props m;
                          inner := setCurrentFetchIndex (props m)
                                     (Z.of_nat i + 1) (inner m) |}).
  { apply occur_deliver. destruct He as [-> | ->]; assumption. }
  assert (Hk : hook (first_props m) (Z.of_nat (S i)) = Some f).
  { unfold hook. now rewrite index_of_nat, Hn, Hf. }
  cbn [life]. rewrite H1. cbn [mbind result_bind Js.bind].
  cbn [occur closure_props first_props props inner step].
  rewrite onScroll_hook.
  change (timer (setCurrentFetchIndex (props m) (Z.of_nat i + 1) (inner m)))
    with (timer (inner m)).
  rewrite Hgo, Hon, Hc, Hk. cbn [mbind result_bind Js.bind].
  eexists. split; [reflexivity|]. simpl. repeat split.
  unfold segmentCount.
  destruct (Z.gtb_spec (Z.of_nat i + 1)
              (Z.of_nat (length (renderConfig (props m))) - 1)); lia.
Qed.

Lemma scroll_after_edge_fetches_first_render_hook_witness :
  exists m',
    life throttle_leading [Deliver (Bottom 0); Deliver (Scroll 10 700)]
      {| first_props := default_props Scenario.three;
         props := default_props Scenario.three_later;
         inner := Scenario.measured |} = Js.Ok m' /\
    fetched (inner m') = fetched Scenario.measured ++ [1%nat] /\
    currentFetchIndex (inner m') = Z.of_nat 1 /\
    scrollTop (inner m') = 700.
Proof.
  apply (scroll_after_edge_fetches_first_render_hook throttle_leading
           {| first_props := default_props Scenario.three;
              props := default_props Scenario.three_later;
              inner := Scenario.measured |} 0%nat
           (Scenario.segment 10 (Js.Function 10))
           (Scenario.segment 5 (Js.Function 1)) 1%nat (Bottom 0) 10 700).
  - reflexivity.
  - reflexivity.
  - vm_compute. discriminate.
  - reflexivity.
  - vm_compute. lia.
  - reflexivity.
  - reflexivity.
  - left. reflexivity.
  - reflexivity.
Defined.

(** X10: a scroll event re-renders every segment with the event's offset
    as [scrollTop] and changes no other prop of any segment, whether or not
    the throttle lets a fetch through: the offset is set before the fetch is
    attempted, and the fetch sets no state. *)
Theorem scroll_rerenders_offset_only {T} (throttle : Z -> Z -> T -> bool * T)
    (now o : Z) (m : Mounted T) :
  exists m',
    occur throttle (Deliver (Scroll now o)) m = Js.Ok m' /\
    props m' = props m /\
    render (props m') (inner m')
    = fmap (M:=list) (with_scrollTop o) <$> render (props m) (inner m).
Proof.
  destruct (scroll_effect throttle (first_props m) now o (inner m))
    as (s' & l & Hs & Hh & Ho & _).
  eexists. split; [exact (occur_deliver throttle (Scroll now o) m s' Hs)|].
  split; [reflexivity|]. cbn [props inner].
  unfold render. rewrite Hh.
  destruct (Js.truthy_number (_height (inner m))); [|reflexivity].
  simpl. f_equal. rewrite fmap_imap. apply imap_ext. intros i d _.
  unfold segment_props, with_scrollTop. simpl. now rewrite Hh, Ho.
Qed.

(** ** No segments *)

(** X14: an instance whose [renderConfig] is empty at its first render and
    at every later one calls nothing and leaves the active index where it
    was, whatever host events it is delivered; once measured it renders an
    empty list of segments. *)
Theorem empty_config_is_inert {T} (throttle : Z -> Z -> T -> bool * T)
    (ocs : list occurrence) (m : Mounted T) :
  renderConfig (first_props m) = [] ->
  renderConfig (props m) = [] ->
  forallb (keeps_segments 0) ocs = true ->
  exists m',
    life throttle ocs m = Js.Ok m' /\
    fetched (inner m') = fetched (inner m) /\
    currentFetchIndex (inner m') = currentFetchIndex (inner m) /\
    (_height (inner m') <> 0 -> render (props m') (inner m') = Some []).
Proof.
  intros Hfirst Hcur Hocs.
  assert (Hrun : exists m',
    life throttle ocs m = Js.Ok m' /\
    renderConfig (props m') = [] /\
    fetched (inner m') = fetched (inner m) /\
    currentFetchIndex (inner m') = currentFetchIndex (inner m)).
  { revert m Hfirst Hcur. induction ocs as [|oc ocs IH]; intros m Hfirst Hcur.
    - exists m. auto.
    - simpl in Hocs. apply andb_true_iff in Hocs as [Hoc Hocs].
      destruct (occur_fetches throttle oc m)
        as (m1 & l & Hm1 & Hf1 & _ & Hc & _).
      destruct (occur_props throttle oc m m1 Hm1) as [Hfirst1 Hprops1].
      assert (Hl : l = []).
      { destruct l as [|f l]; [reflexivity|].
        apply Forall_cons in Hc as [[Hq | Hq] _];
          destruct Hq as (i & d & Hd & _);
          rewrite ?Hfirst, ?Hcur in Hd; discriminate. }
      rewrite Hl, app_nil_r in Hf1.
      assert (H1 : renderConfig (props m1) = [] /\
                   currentFetchIndex (inner m1) = currentFetchIndex (inner m)).
      { rewrite Hprops1. destruct oc as [e|p'].
        - split; [exact Hcur|].
          assert (Hstep : exists s',
            step throttle (closure_props m e) e (inner m) = Js.Ok s' /\
            currentFetchIndex s' = currentFetchIndex (inner m)).
          { destruct e as [now o|index|index|rect|val]; try discriminate.
            - destruct (scroll_effect throttle (first_props m) now o (inner m))
                as (s' & l' & Hs & _ & _ & Hi & _).
              exists s'. auto.
            - destruct (host_step_index throttle (props m) (Bottom index)
                          (inner m) eq_refl)
                as (s' & Hs & [Hi | (_ & Hn & _)]); [exists s'; auto|].
              unfold segmentCount in Hn. rewrite Hcur in Hn. simpl in Hn. lia.
            - destruct (host_step_index throttle (props m) (Leave index)
                          (inner m) eq_refl)
                as (s' & Hs & [Hi | (_ & Hn & _)]); [exists s'; auto|].
              unfold segmentCount in Hn. rewrite Hcur in Hn. simpl in Hn. lia.
            - eexists. split; reflexivity. }
          destruct Hstep as (s' & Hs & Hi).
          rewrite (occur_deliver throttle e m s' Hs) in Hm1.
          injection Hm1 as <-. exact Hi.
        - simpl in Hoc. apply Nat.eqb_eq in Hoc.
          split; [now apply nil_length_inv|].
          simpl in Hm1. injection Hm1 as <-. reflexivity. }
      destruct H1 as [Hcur1 Hi1].
      destruct (IH Hocs m1) as (m' & Hr & Hcur' & Hf' & Hi');
        [congruence|exact Hcur1|].
      exists m'. split; [cbn [life]; rewrite Hm1; exact Hr|].
      split; [exact Hcur'|]. split; congruence. }
  destruct Hrun as (m' & Hr & Hcur' & Hf & Hi). exists m'.
  split; [exact Hr|]. split; [exact Hf|]. split; [exact Hi|].
  intros Hh. unfold render, Js.truthy_number.
  destruct (Z.eqb_spec (_height (inner m')) 0); [contradiction|].
  simpl. now rewrite Hcur'.
Qed.

Lemma empty_config_is_inert_witness :
  exists m',
    life throttle_leading
      [Deliver (Measure (Some 300)); Deliver (Scroll 0 40);
       Rerender (default_props []); Deliver (Bottom 0); Deliver (Leave 0);
       Deliver (Scroll 500 90)]
      (mounted (default_props []) None) = Js.Ok m' /\
    fetched (inner m') = [] /\
    currentFetchIndex (inner m') = 0.
Proof.
  destruct (empty_config_is_inert throttle_leading
              [Deliver (Measure (Some 300)); Deliver (Scroll 0 40);
               Rerender (default_props []); Deliver (Bottom 0);
               Deliver (Leave 0); Deliver (Scroll 500 90)]
              (mounted (default_props []) None) eq_refl eq_refl eq_refl)
    as (m' & Hr & Hf & Hc & _).
  exists m'. auto.
Defined.
